(** * Conan recipes of conan-center-index: cppcheck, imagemagick6, vectorscan test package

    A shallow embedding of the three [conanfile.py] recipes of the
    repository and the proofs of their configuration-consistency
    properties.  Each recipe method becomes a function on the part of
    the [ConanFile] object it reads and writes; helpers that Conan itself
    provides ([Version], the package-id hash) are taken as an interface. *)

From Stdlib Require Import Ascii DecimalString.
From stdpp Require Import gmap strings list fin_maps.


(** ** The part of Conan's object model that the recipes rely on *)

Module Conan.

(** Exceptions a recipe method can end with. *)
Inductive exn : Type :=
| ConanInvalidConfiguration (msg : string)
| ConanException (msg : string).

Inductive result (A : Type) : Type :=
| Ok (a : A)
| Raise (e : exn).
Arguments Ok {A} a.
Arguments Raise {A} e.

Definition bind {A B} (r : result A) (k : A -> result B) : result B :=
  match r with
  | Ok a => k a
  | Raise e => Raise e
  end.

Definition is_invalid_configuration {A} (r : result A) : bool :=
  match r with
  | Raise (ConanInvalidConfiguration _) => true
  | _ => false
  end.

(** Python literals as they occur in [options] and [default_options]. *)
Inductive PyLit : Type :=
| PyNone
| PyBool (b : bool)
| PyInt (n : N)
| PyStr (s : string).

#[global] Instance PyLit_eq_dec : EqDecision PyLit.
Proof. solve_decision. Defined.

(** [str(v)] of a literal. *)
Definition py_str (v : PyLit) : string :=
  match v with
  | PyNone => "None"
  | PyBool true => "True"
  | PyBool false => "False"
  | PyInt n => NilZero.string_of_uint (N.to_uint n)
  | PyStr s => s
  end.

(** A [_PackageOption] keeps its value as a string, or [None]. *)
Definition PackageOption : Type := option string.

Definition store (v : PyLit) : PackageOption :=
  match v with
  | PyNone => None
  | _ => Some (py_str v)
  end.

Definition ascii_lower (c : ascii) : ascii :=
  let n := nat_of_ascii c in
  if (65 <=? n)%nat && (n <=? 90)%nat then ascii_of_nat (n + 32) else c.

Fixpoint lower (s : string) : string :=
  match s with
  | EmptyString => EmptyString
  | String c r => String (ascii_lower c) (lower r)
  end.

Definition _falsey_options : list string := ["false"; "none"; "0"; "off"; ""].

(** [_PackageOption.__bool__] *)
Definition truthy (o : PackageOption) : bool :=
  match o with
  | None => false
  | Some v => negb (bool_decide (lower v ∈ _falsey_options))
  end.

(** [_PackageOption.__str__], used by f-strings. *)
Definition option_str (o : PackageOption) : string :=
  match o with
  | None => "None"
  | Some v => v
  end.

(** [_PackageOption.__eq__] against a literal of the declared values. *)
Definition option_eq (o : PackageOption) (other : PyLit) : bool :=
  match other with
  | PyNone => bool_decide (o = None)
  | _ => bool_decide (py_str other = option_str o)
  end.

(** One setting: its value and the sub-settings below it. *)
Record SettingsItem : Type := {
  item_value : option string;
  item_subsettings : list (string * string)
}.

#[global] Instance SettingsItem_eq_dec : EqDecision SettingsItem.
Proof. solve_decision. Defined.

(** [settings = "os", "arch", "compiler", "build_type"] *)
Record Settings : Type := {
  os : SettingsItem;
  arch : SettingsItem;
  compiler : SettingsItem;
  build_type : SettingsItem
}.

(** [SettingsItem.__eq__] against a string. *)
Definition setting_eq (i : SettingsItem) (other : string) : bool :=
  bool_decide (item_value i = Some other).

(** The settings as [self.info.settings] holds them: fields by name,
    from which [package_id] may delete. *)
Definition info_settings_of (s : Settings) : gmap string SettingsItem :=
  <["os" := os s]> (<["arch" := arch s]>
    (<["compiler" := compiler s]> (<["build_type" := build_type s]> ∅))).

Record ConanInfo : Type := {
  info_settings : gmap string SettingsItem;
  info_options : list (string * PackageOption);
  info_requires : list string
}.

(** [Settings.__delattr__]: the field has to exist. *)
Definition delattr_setting (field : string) (i : ConanInfo) : result ConanInfo :=
  match info_settings i !! field with
  | None => Raise (ConanException ("'settings." +:+ field +:+ "' doesn't exist"))
  | Some _ =>
      Ok {| info_settings := delete field (info_settings i);
            info_options := info_options i;
            info_requires := info_requires i |}
  end.

(** What the recipes use of Conan and is not part of the repository:
    [Version(v).major] as text, the comparisons of [Version] with a
    literal, the hash that turns a [ConanInfo] into a package id, and the
    entry that [self.info.requires] holds for a required reference built
    under given settings.  For an application that requires a static
    library this entry carries the package id of the dependency, which
    follows the settings the dependency is built with. *)
Class Library : Type := {
  Version_major : string -> string;
  Version_ge : string -> string -> bool;
  Version_lt : string -> string -> bool;
  info_package_id : ConanInfo -> string;
  dependency_info : string -> Settings -> string
}.

(** [d[key]] on a dictionary written out as its items, in order. *)
Fixpoint assoc {V : Type} (key : string) (d : list (string * V)) : option V :=
  match d with
  | [] => None
  | (k, v) :: d => if bool_decide (k = key) then Some v else assoc key d
  end.

(** [self.requires(ref)] *)
Definition requires (ref : string) (deps : list string) : list string :=
  deps ++ [ref].

(** [if cond: body] over a piece of state. *)
Definition when {S : Type} (cond : bool) (body : S -> S) (st : S) : S :=
  if cond then body st else st.

(** [if cond1: body1 elif cond2: body2] over a piece of state. *)
Definition when_elif {S : Type} (cond1 : bool) (body1 : S -> S)
    (cond2 : bool) (body2 : S -> S) (st : S) : S :=
  if cond1 then body1 st else if cond2 then body2 st else st.

(** [os.path.join] with the POSIX separator. *)
Definition path_join (a b : string) : string := a +:+ "/" +:+ b.

End Conan.

Import Conan.

(** ** recipes/cppcheck/all/conanfile.py *)

Module Cppcheck.

Definition name : string := "cppcheck".

Definition options : list (string * list PyLit) :=
  [ ("have_rules", [PyBool true; PyBool false]) ].

Definition default_options : list (string * PyLit) :=
  [ ("have_rules", PyBool true) ].

(** The values of [self.options]. *)
Record OptionValues : Type := { have_rules : bool }.

Record ConanFile : Type := {
  version : string;
  settings : Settings;
  self_options : OptionValues;
  source_folder : string;
  package_folder : string
}.

(** [self.options.get_safe(attr, default)] *)
Definition get_safe (o : OptionValues) (attr : string) : option PackageOption :=
  if bool_decide (attr = "have_rules")
  then Some (store (PyBool (have_rules o)))
  else None.

(** Truth value of what [get_safe] hands back when the default is [None]. *)
Definition safe_truthy (v : option PackageOption) : bool :=
  match v with
  | Some o => truthy o
  | None => false
  end.

Definition export_sources (c : ConanFile) : list string :=
  ["export_conandata_patches"].

Definition layout (c : ConanFile) : list string :=
  ["cmake_layout src_folder=src"].

Definition requirements (c : ConanFile) (deps : list string) : list string :=
  when (safe_truthy (get_safe (self_options c) "have_rules"))
       (requires "pcre/8.45") deps.

Definition package_id (i : ConanInfo) : result ConanInfo :=
  bind (delattr_setting "compiler" i) (delattr_setting "build_type").

(** [self.info] as [package_id] finds it: the settings and options of the
    recipe, and for each requirement the entry Conan keeps of it. *)
Definition info_of `{Library} (c : ConanFile) : ConanInfo :=
  {| info_settings := info_settings_of (settings c);
     info_options := [("have_rules", store (PyBool (have_rules (self_options c))))];
     info_requires :=
       (fun ref => dependency_info ref (settings c)) <$> requirements c [] |}.

(** The package id Conan derives from [self.info] once [package_id] ran. *)
Definition package_identifier `{Library} (c : ConanFile) : result string :=
  bind (package_id (info_of c)) (fun i => Ok (info_package_id i)).

Definition source (c : ConanFile) : list string :=
  ["get strip_root=True"].

Inductive CMakeValue : Type :=
| CMBool (b : bool)
| CMStr (s : string)
| CMOption (o : PackageOption).

Record CMakeToolchain : Type := {
  variables : gmap string CMakeValue;
  cache_variables : gmap string CMakeValue
}.

Definition set_variable (k : string) (v : CMakeValue) (tc : CMakeToolchain) : CMakeToolchain :=
  {| variables := <[k := v]> (variables tc); cache_variables := cache_variables tc |}.

Definition set_cache_variable (k : string) (v : CMakeValue) (tc : CMakeToolchain) : CMakeToolchain :=
  {| variables := variables tc; cache_variables := <[k := v]> (cache_variables tc) |}.

Definition generate `{Library} (c : ConanFile) (tc : CMakeToolchain) : CMakeToolchain :=
  let tc := set_variable "HAVE_RULES"
              (match get_safe (self_options c) "have_rules" with
               | Some o => CMOption o
               | None => CMBool false
               end) tc in
  let tc := set_variable "USE_MATCHCOMPILER" (CMStr "Auto") tc in
  let tc := set_variable "ENABLE_OSS_FUZZ" (CMBool false) tc in
  let tc := when (Version_ge (version c) "2.11.0")
                 (set_variable "DISABLE_DMAKE" (CMBool true)) tc in
  let tc := set_variable "FILESDIR" (CMStr "bin") tc in
  let tc := when (Version_lt (version c) "2.14.0")
                 (set_cache_variable "CMAKE_POLICY_VERSION_MINIMUM" (CMStr "3.5")) tc in
  tc.

Definition build (c : ConanFile) : list string :=
  ["apply_conandata_patches"; "CMake.configure"; "CMake.build"].

Definition package (c : ConanFile) : list string :=
  [ "copy COPYING " +:+ source_folder c +:+ " " +:+ path_join (package_folder c) "licenses";
    "copy cppcheck-htmlreport " +:+ path_join (source_folder c) "htmlreport"
      +:+ " " +:+ path_join (package_folder c) "bin";
    "CMake.install" ].

Record PackageInfo : Type := {
  includedirs : list string;
  libdirs : list string;
  runenv_info : list (string * string)
}.

Definition package_info (c : ConanFile) : PackageInfo :=
  let bin_folder := path_join (package_folder c) "bin" in
  let cppcheck_htmlreport := path_join bin_folder "cppcheck-htmlreport" in
  {| includedirs := [];
     libdirs := [];
     runenv_info := [("CPPCHECK_HTMLREPORT", cppcheck_htmlreport)] |}.

Inductive Method : Type :=
| m_export_sources | m_layout | m_requirements | m_package_id | m_source
| m_generate | m_build | m_package | m_package_info.

(** How a method ends: normally, or with the exception it raised. *)
Definition run `{Library} (m : Method) (c : ConanFile) : result unit :=
  match m with
  | m_export_sources => let _ := export_sources c in Ok tt
  | m_layout => let _ := layout c in Ok tt
  | m_requirements => let _ := requirements c [] in Ok tt
  | m_package_id => bind (package_id (info_of c)) (fun _ => Ok tt)
  | m_source => let _ := source c in Ok tt
  | m_generate =>
      let _ := generate c {| variables := ∅; cache_variables := ∅ |} in Ok tt
  | m_build => let _ := build c in Ok tt
  | m_package => let _ := package c in Ok tt
  | m_package_info => let _ := package_info c in Ok tt
  end.

End Cppcheck.

(** ** recipes/imagemagick6/all/conanfile.py *)

Module ImageMagick6.

Definition name : string := "imagemagick6".

Definition bools : list PyLit := [PyBool true; PyBool false].

Definition options : list (string * list PyLit) :=
  [ ("shared", bools);
    ("fPIC", bools);
    ("hdri", bools);
    ("quantum_depth", [PyInt 8; PyInt 16; PyInt 32]);
    ("with_zlib", bools);
    ("with_bzlib", bools);
    ("with_lzma", bools);
    ("with_lcms", bools);
    ("with_openexr", bools);
    ("with_heic", bools);
    ("with_jbig", bools);
    ("with_jpeg", [PyNone; PyStr "libjpeg"; PyStr "libjpeg-turbo"]);
    ("with_openjp2", bools);
    ("with_pango", bools);
    ("with_png", bools);
    ("with_tiff", bools);
    ("with_webp", bools);
    ("with_xml2", bools);
    ("with_freetype", bools);
    ("with_djvu", bools);
    ("utilities", bools) ].

Definition default_options : list (string * PyLit) :=
  [ ("shared", PyBool false);
    ("fPIC", PyBool true);
    ("hdri", PyBool true);
    ("quantum_depth", PyInt 16);
    ("with_zlib", PyBool true);
    ("with_bzlib", PyBool true);
    ("with_lzma", PyBool true);
    ("with_lcms", PyBool true);
    ("with_openexr", PyBool false);
    ("with_heic", PyBool true);
    ("with_jbig", PyBool true);
    ("with_jpeg", PyStr "libjpeg");
    ("with_openjp2", PyBool true);
    ("with_pango", PyBool false);
    ("with_png", PyBool true);
    ("with_tiff", PyBool true);
    ("with_webp", PyBool true);
    ("with_xml2", PyBool false);
    ("with_freetype", PyBool false);
    ("with_djvu", PyBool false);
    ("utilities", PyBool true) ].

Inductive QuantumDepth : Type := Q8 | Q16 | Q32.

Inductive JpegBackend : Type := jpeg_none | jpeg_libjpeg | jpeg_libjpeg_turbo.

#[global] Instance QuantumDepth_eq_dec : EqDecision QuantumDepth.
Proof. solve_decision. Defined.

#[global] Instance JpegBackend_eq_dec : EqDecision JpegBackend.
Proof. solve_decision. Defined.

Definition quantum_lit (q : QuantumDepth) : PyLit :=
  match q with
  | Q8 => PyInt 8
  | Q16 => PyInt 16
  | Q32 => PyInt 32
  end.

Definition jpeg_lit (j : JpegBackend) : PyLit :=
  match j with
  | jpeg_none => PyNone
  | jpeg_libjpeg => PyStr "libjpeg"
  | jpeg_libjpeg_turbo => PyStr "libjpeg-turbo"
  end.

(** The values of [self.options]; [fPIC] is [None] once deleted. *)
Record OptionValues : Type := {
  shared : bool;
  fPIC : option bool;
  hdri : bool;
  quantum_depth : QuantumDepth;
  with_zlib : bool;
  with_bzlib : bool;
  with_lzma : bool;
  with_lcms : bool;
  with_openexr : bool;
  with_heic : bool;
  with_jbig : bool;
  with_jpeg : JpegBackend;
  with_openjp2 : bool;
  with_pango : bool;
  with_png : bool;
  with_tiff : bool;
  with_webp : bool;
  with_xml2 : bool;
  with_freetype : bool;
  with_djvu : bool;
  utilities : bool
}.

Record ConanFile : Type := {
  version : string;
  settings : Settings;
  self_options : OptionValues;
  source_folder : string;
  package_folder : string
}.

(** [self.options.<name>] for a boolean option. *)
Definition flag (b : bool) : PackageOption := store (PyBool b).

Definition opt_quantum_depth (o : OptionValues) : PackageOption :=
  store (quantum_lit (quantum_depth o)).

Definition opt_with_jpeg (o : OptionValues) : PackageOption :=
  store (jpeg_lit (with_jpeg o)).

Definition remove_fPIC (o : OptionValues) : OptionValues :=
  {| shared := shared o; fPIC := None; hdri := hdri o;
     quantum_depth := quantum_depth o; with_zlib := with_zlib o;
     with_bzlib := with_bzlib o; with_lzma := with_lzma o;
     with_lcms := with_lcms o; with_openexr := with_openexr o;
     with_heic := with_heic o; with_jbig := with_jbig o;
     with_jpeg := with_jpeg o; with_openjp2 := with_openjp2 o;
     with_pango := with_pango o; with_png := with_png o;
     with_tiff := with_tiff o; with_webp := with_webp o;
     with_xml2 := with_xml2 o; with_freetype := with_freetype o;
     with_djvu := with_djvu o; utilities := utilities o |}.

Definition with_options (c : ConanFile) (o : OptionValues) : ConanFile :=
  {| version := version c; settings := settings c; self_options := o;
     source_folder := source_folder c; package_folder := package_folder c |}.

Definition _modules : list string := ["MagickCore"; "MagickWand"; "Magick++"].

Definition layout (c : ConanFile) : list string :=
  ["basic_layout src_folder=source"].

Definition config_options (c : ConanFile) : ConanFile :=
  when (setting_eq (os (settings c)) "Windows")
       (fun c => with_options c (remove_fPIC (self_options c))) c.

Definition configure (c : ConanFile) : ConanFile :=
  when (truthy (flag (shared (self_options c))))
       (fun c => with_options c (remove_fPIC (self_options c))) c.

(** [self.output.warning(msg)] *)
Definition warning (msg : string) (out : list string) : list string :=
  out ++ [msg].

Definition validate (c : ConanFile) (out : list string) : result (list string) :=
  let o := self_options c in
  if setting_eq (os (settings c)) "Windows" then
    Raise (ConanInvalidConfiguration
      ("This recipe currently supports ImageMagick 6 on macOS (and Linux) via Autotools. "
       +:+ "Windows build is not supported with this configuration."))
  else
    let out := when (truthy (flag (with_pango o)) && setting_eq (os (settings c)) "Macos")
      (warning "Building ImageMagick with Pango on macOS might require X11/Quartz or specific setup.")
      out in
    let out := when (truthy (flag (with_djvu o)))
      (warning "Conan package for DjVuLibre is not commonly available. Ensure it's system-installed if this option is True.")
      out in
    Ok out.

Definition requirements (c : ConanFile) (deps : list string) : list string :=
  let o := self_options c in
  let deps := when (truthy (flag (with_zlib o))) (requires "zlib/1.3.1") deps in
  let deps := when (truthy (flag (with_bzlib o))) (requires "bzip2/1.0.8") deps in
  let deps := when (truthy (flag (with_lzma o))) (requires "xz_utils/[>=5.4.5 <6]") deps in
  let deps := when (truthy (flag (with_lcms o))) (requires "lcms/2.16") deps in
  let deps := when (truthy (flag (with_openexr o))) (requires "openexr/3.1.9") deps in
  let deps := when (truthy (flag (with_heic o))) (requires "libheif/[>=1.16.2 <2]") deps in
  let deps := when (truthy (flag (with_jbig o))) (requires "jbig/20160605") deps in
  let deps := when_elif
    (option_eq (opt_with_jpeg o) (PyStr "libjpeg")) (requires "libjpeg/9e")
    (option_eq (opt_with_jpeg o) (PyStr "libjpeg-turbo")) (requires "libjpeg-turbo/3.0.3")
    deps in
  let deps := when (truthy (flag (with_openjp2 o))) (requires "openjpeg/[>=2.5.2 <3]") deps in
  let deps := when (truthy (flag (with_pango o))) (requires "pango/1.50.14") deps in
  let deps := when (truthy (flag (with_png o))) (requires "libpng/[>=1.6.48 <2]") deps in
  let deps := when (truthy (flag (with_tiff o)))
    (fun deps => requires "zstd/1.5.7" (requires "libtiff/[>=4.6.0 <5]" deps)) deps in
  let deps := when (truthy (flag (with_webp o))) (requires "libwebp/[>=1.3.2 <2]") deps in
  let deps := when (truthy (flag (with_xml2 o))) (requires "libxml2/2.12.7") deps in
  let deps := when (truthy (flag (with_freetype o))) (requires "freetype/2.13.2") deps in
  deps.

Definition source (c : ConanFile) : list string :=
  ["get strip_root=True"].

Definition yes_no (opt_value : bool) : string :=
  if opt_value then "yes" else "no".

(** The local list [configure_args] of [generate]. *)
Definition configure_args (c : ConanFile) : list string :=
  let o := self_options c in
  [ "--disable-openmp";
    "--disable-opencl";
    "--disable-docs";
    "--with-perl=no";
    "--with-x=no";
    "--with-fontconfig=" +:+ yes_no (truthy (flag (with_pango o)));
    "--without-dps";
    "--without-fftw";
    "--without-fpx";
    "--without-raw";
    "--without-wmf";
    "--enable-shared=" +:+ yes_no (truthy (flag (shared o)));
    "--enable-static=" +:+ yes_no (negb (truthy (flag (shared o))));
    "--enable-hdri=" +:+ yes_no (truthy (flag (hdri o)));
    "--with-quantum-depth=" +:+ option_str (opt_quantum_depth o);
    "--with-zlib=" +:+ yes_no (truthy (flag (with_zlib o)));
    "--with-bzlib=" +:+ yes_no (truthy (flag (with_bzlib o)));
    "--with-lzma=" +:+ yes_no (truthy (flag (with_lzma o)));
    "--with-lcms=" +:+ yes_no (truthy (flag (with_lcms o)));
    "--with-openexr=" +:+ yes_no (truthy (flag (with_openexr o)));
    "--with-heic=" +:+ yes_no (truthy (flag (with_heic o)));
    "--with-jbig=" +:+ yes_no (truthy (flag (with_jbig o)));
    "--with-jpeg=" +:+ yes_no (truthy (opt_with_jpeg o));
    "--with-openjp2=" +:+ yes_no (truthy (flag (with_openjp2 o)));
    "--with-pango=" +:+ yes_no (truthy (flag (with_pango o)));
    "--with-png=" +:+ yes_no (truthy (flag (with_png o)));
    "--with-tiff=" +:+ yes_no (truthy (flag (with_tiff o)));
    "--with-webp=" +:+ yes_no (truthy (flag (with_webp o)));
    "--with-xml=" +:+ yes_no (truthy (flag (with_xml2 o)));
    "--with-freetype=" +:+ yes_no (truthy (flag (with_freetype o)));
    "--with-djvu=" +:+ yes_no (truthy (flag (with_djvu o)));
    "--with-utilities=" +:+ yes_no (truthy (flag (utilities o))) ].

Record AutotoolsToolchain : Type := {
  extra_ldflags : list string;
  make_args : list string;
  tc_configure_args : list string
}.

(** Conan's [is_apple_os]. *)
Definition is_apple_os (c : ConanFile) : bool :=
  bool_decide (item_value (os (settings c)) ∈
    [Some "Macos"; Some "iOS"; Some "watchOS"; Some "tvOS"; Some "visionOS"]).

Definition generate (c : ConanFile) (tc : AutotoolsToolchain) : AutotoolsToolchain :=
  let tc := when (is_apple_os c && truthy (flag (shared (self_options c))))
    (fun tc => {| extra_ldflags := extra_ldflags tc ++ ["-Wl,-headerpad_max_install_names"];
                  make_args := make_args tc;
                  tc_configure_args := tc_configure_args tc |}) tc in
  {| extra_ldflags := extra_ldflags tc;
     make_args := make_args tc ++ ["V=1"];
     tc_configure_args := tc_configure_args tc ++ configure_args c |}.

Definition build (c : ConanFile) : list string :=
  ["apply_conandata_patches"; "Autotools.configure"; "Autotools.make"].

Definition package (c : ConanFile) : list string :=
  [ "copy LICENSE"; "copy COPYING"; "Autotools.install" ]
  ++ (if is_apple_os c then ["fix_apple_shared_install_name"] else [])
  ++ [ "rmdir " +:+ path_join (path_join (package_folder c) "lib") "pkgconfig";
       "rmdir " +:+ path_join (package_folder c) "etc";
       "rmdir " +:+ path_join (path_join (package_folder c) "share") "doc";
       "rmdir " +:+ path_join (path_join (package_folder c) "share") "man";
       "rm *.la " +:+ path_join (package_folder c) "lib" ].

Definition _libname `{Library} (c : ConanFile) (library_base_name : string) : string :=
  let im_major := Version_major (version c) in
  let suffix := if truthy (flag (hdri (self_options c))) then "HDRI" else "" in
  library_base_name +:+ "-" +:+ im_major +:+ ".Q"
    +:+ option_str (opt_quantum_depth (self_options c)) +:+ suffix.

Record Component : Type := {
  libs : list string;
  includedirs : list string;
  defines : list string;
  system_libs : list string;
  comp_requires : list string;
  comp_properties : gmap string string
}.

Definition new_component : Component :=
  {| libs := []; includedirs := []; defines := []; system_libs := [];
     comp_requires := []; comp_properties := ∅ |}.

Definition set_libs (v : list string) (k : Component) : Component :=
  {| libs := v; includedirs := includedirs k; defines := defines k;
     system_libs := system_libs k; comp_requires := comp_requires k;
     comp_properties := comp_properties k |}.

Definition set_includedirs (v : list string) (k : Component) : Component :=
  {| libs := libs k; includedirs := v; defines := defines k;
     system_libs := system_libs k; comp_requires := comp_requires k;
     comp_properties := comp_properties k |}.

Definition extend_defines (v : list string) (k : Component) : Component :=
  {| libs := libs k; includedirs := includedirs k; defines := defines k ++ v;
     system_libs := system_libs k; comp_requires := comp_requires k;
     comp_properties := comp_properties k |}.

Definition append_system_lib (v : string) (k : Component) : Component :=
  {| libs := libs k; includedirs := includedirs k; defines := defines k;
     system_libs := system_libs k ++ [v]; comp_requires := comp_requires k;
     comp_properties := comp_properties k |}.

Definition set_requires (v : list string) (k : Component) : Component :=
  {| libs := libs k; includedirs := includedirs k; defines := defines k;
     system_libs := system_libs k; comp_requires := v;
     comp_properties := comp_properties k |}.

Definition append_requires (v : string) (k : Component) : Component :=
  {| libs := libs k; includedirs := includedirs k; defines := defines k;
     system_libs := system_libs k; comp_requires := comp_requires k ++ [v];
     comp_properties := comp_properties k |}.

Definition set_property (p v : string) (k : Component) : Component :=
  {| libs := libs k; includedirs := includedirs k; defines := defines k;
     system_libs := system_libs k; comp_requires := comp_requires k;
     comp_properties := <[p := v]> (comp_properties k) |}.

(** What [package_info] writes: [self.cpp_info] and [self.runenv_info]. *)
Record PackageInfo : Type := {
  components : gmap string Component;
  properties : gmap string string;
  runenv_path : list string
}.

Definition new_package_info : PackageInfo :=
  {| components := ∅; properties := ∅; runenv_path := [] |}.

(** [self.cpp_info.components[name]], created on first use, then changed by [f]. *)
Definition component (name : string) (f : Component -> Component)
    (p : PackageInfo) : PackageInfo :=
  {| components := <[name := f (default new_component (components p !! name))]> (components p);
     properties := properties p;
     runenv_path := runenv_path p |}.

Definition set_cpp_property (k v : string) (p : PackageInfo) : PackageInfo :=
  {| components := components p;
     properties := <[k := v]> (properties p);
     runenv_path := runenv_path p |}.

Definition prepend_path (v : string) (p : PackageInfo) : PackageInfo :=
  {| components := components p;
     properties := properties p;
     runenv_path := v :: runenv_path p |}.

(** The [pkg_config_name] computed for the component [base]. *)
Definition pc_config_name `{Library} (c : ConanFile) (base : string) : string :=
  let im_version_major := Version_major (version c) in
  let pc := base +:+ "-" +:+ im_version_major +:+ ".Q"
              +:+ option_str (opt_quantum_depth (self_options c)) in
  if truthy (flag (hdri (self_options c))) && negb (setting_eq (os (settings c)) "Windows")
  then pc +:+ "HDRI"
  else pc.

Definition package_info `{Library} (c : ConanFile) (p : PackageInfo) : PackageInfo :=
  let o := self_options c in
  let im_version_major := Version_major (version c) in
  let imagemagick_include_subdir :=
    path_join "include" ("ImageMagick-" +:+ im_version_major) in
  (* MagickCore *)
  let lib_magickcore := _libname c "MagickCore" in
  let p := component "MagickCore" (set_libs [lib_magickcore]) p in
  let p := component "MagickCore"
             (set_includedirs [path_join imagemagick_include_subdir "magick"]) p in
  let p := component "MagickCore" (extend_defines
             [ "MAGICKCORE_QUANTUM_DEPTH=" +:+ option_str (opt_quantum_depth o);
               "MAGICKCORE_HDRI_ENABLE=" +:+ (if truthy (flag (hdri o)) then "1" else "0");
               if truthy (flag (shared o)) then "_MAGICKDLL_=1" else "_MAGICKLIB_=1" ]) p in
  let p := when (setting_eq (os (settings c)) "Linux")
             (component "MagickCore" (append_system_lib "pthread")) p in
  let pc_config_name_magickcore := pc_config_name c "MagickCore" in
  let p := component "MagickCore"
             (set_property "pkg_config_name" pc_config_name_magickcore) p in
  (* MagickWand *)
  let lib_magickwand := _libname c "MagickWand" in
  let p := component "MagickWand" (set_libs [lib_magickwand]) p in
  let p := component "MagickWand"
             (set_includedirs [path_join imagemagick_include_subdir "wand"]) p in
  let p := component "MagickWand" (set_requires ["MagickCore"]) p in
  let pc_config_name_magickwand := pc_config_name c "MagickWand" in
  let p := component "MagickWand"
             (set_property "pkg_config_name" pc_config_name_magickwand) p in
  (* Magick++ *)
  let lib_magickpp := _libname c "Magick++" in
  let p := component "Magick++" (set_libs [lib_magickpp]) p in
  let p := component "Magick++"
             (set_includedirs [ path_join imagemagick_include_subdir "Magick++";
                                imagemagick_include_subdir ]) p in
  let p := component "Magick++" (set_requires ["MagickWand"]) p in
  let pc_config_name_magickpp := pc_config_name c "Magick++" in
  let p := component "Magick++"
             (set_property "pkg_config_name" pc_config_name_magickpp) p in
  (* dependencies of the components *)
  let core r := component "MagickCore" (append_requires r) in
  let p := when (truthy (flag (with_zlib o))) (core "zlib::zlib") p in
  let p := when (truthy (flag (with_bzlib o))) (core "bzip2::bzip2") p in
  let p := when (truthy (flag (with_lzma o))) (core "xz_utils::xz_utils") p in
  let p := when (truthy (flag (with_lcms o))) (core "lcms::lcms") p in
  let p := when (truthy (flag (with_openexr o))) (core "openexr::openexr") p in
  let p := when (truthy (flag (with_heic o))) (core "libheif::libheif") p in
  let p := when (truthy (flag (with_jbig o))) (core "jbig::jbig") p in
  let p := when_elif
    (option_eq (opt_with_jpeg o) (PyStr "libjpeg")) (core "libjpeg::libjpeg")
    (option_eq (opt_with_jpeg o) (PyStr "libjpeg-turbo")) (core "libjpeg-turbo::libjpeg-turbo")
    p in
  let p := when (truthy (flag (with_openjp2 o))) (core "openjpeg::openjpeg") p in
  let p := when (truthy (flag (with_pango o))) (core "pango::pango") p in
  let p := when (truthy (flag (with_png o))) (core "libpng::libpng") p in
  let p := when (truthy (flag (with_tiff o)))
             (fun p => core "zstd::zstd" (core "libtiff::libtiff" p)) p in
  let p := when (truthy (flag (with_webp o))) (core "libwebp::libwebp") p in
  let p := when (truthy (flag (with_xml2 o))) (core "libxml2::libxml2") p in
  let p := when (truthy (flag (with_freetype o))) (core "freetype::freetype") p in
  let p := when (truthy (flag (utilities o)))
             (prepend_path (path_join (package_folder c) "bin")) p in
  let p := set_cpp_property "cmake_file_name" "ImageMagick" p in
  let p := set_cpp_property "cmake_target_name" "ImageMagick::MagickCore" p in
  let p := component "MagickCore"
             (set_property "cmake_target_name" "ImageMagick::MagickCore") p in
  let p := component "MagickWand"
             (set_property "cmake_target_name" "ImageMagick::MagickWand") p in
  let p := component "Magick++"
             (set_property "cmake_target_name" "ImageMagick::Magick++") p in
  p.

Inductive Method : Type :=
| m_layout | m_config_options | m_configure | m_validate | m_requirements
| m_source | m_generate | m_build | m_package | m_package_info.

(** How a method ends: normally, or with the exception it raised. *)
Definition run `{Library} (m : Method) (c : ConanFile) : result unit :=
  match m with
  | m_layout => let _ := layout c in Ok tt
  | m_config_options => let _ := config_options c in Ok tt
  | m_configure => let _ := configure c in Ok tt
  | m_validate => bind (validate c []) (fun _ => Ok tt)
  | m_requirements => let _ := requirements c [] in Ok tt
  | m_source => let _ := source c in Ok tt
  | m_generate =>
      let _ := generate c {| extra_ldflags := []; make_args := [];
                             tc_configure_args := [] |} in Ok tt
  | m_build => let _ := build c in Ok tt
  | m_package => let _ := package c in Ok tt
  | m_package_info => let _ := package_info c new_package_info in Ok tt
  end.

End ImageMagick6.

(** ** recipes/vectorscan/all/test_package/conanfile.py *)

Module VectorscanTestPackage.

Record ConanFile : Type := {
  settings : Settings;
  tested_reference_str : string;
  (** [self.dependencies["vectorscan"].options.with_chimera] *)
  with_chimera : PackageOption;
  (** [can_run(self)] *)
  can_run : bool;
  (** [self.cpp.build.bindirs[0]] *)
  bindir : string
}.

Definition generators : list string := ["CMakeDeps"; "VirtualRunEnv"].

Definition test_type : string := "explicit".

Definition layout (c : ConanFile) : list string := ["cmake_layout"].

Definition requirements (c : ConanFile) (deps : list string) : list string :=
  requires (tested_reference_str c) deps.

(** [tc.variables] after [generate]. *)
Definition generate (c : ConanFile) (variables : gmap string PackageOption)
    : gmap string PackageOption :=
  <["BUILD_CHIMERA" := with_chimera c]> variables.

Definition build (c : ConanFile) : list string :=
  ["CMake.configure"; "CMake.build"].

(** The commands [test] runs, in order. *)
Definition test (c : ConanFile) : list string :=
  if can_run c then
    [path_join (bindir c) "hs_example"]
    ++ (if truthy (with_chimera c) then [path_join (bindir c) "ch_example"] else [])
  else [].

Inductive Method : Type :=
| m_layout | m_requirements | m_generate | m_build | m_test.

Definition run (m : Method) (c : ConanFile) : result unit :=
  match m with
  | m_layout => let _ := layout c in Ok tt
  | m_requirements => let _ := requirements c [] in Ok tt
  | m_generate => let _ := generate c ∅ in Ok tt
  | m_build => let _ := build c in Ok tt
  | m_test => let _ := test c in Ok tt
  end.

End VectorscanTestPackage.

(** ** The recipes of the repository, side by side *)

Module Repository.

Inductive Recipe : Type := cppcheck | imagemagick6 | vectorscan_test_package.

Definition ConanFile (r : Recipe) : Type :=
  match r with
  | cppcheck => Cppcheck.ConanFile
  | imagemagick6 => ImageMagick6.ConanFile
  | vectorscan_test_package => VectorscanTestPackage.ConanFile
  end.

Definition Method (r : Recipe) : Type :=
  match r with
  | cppcheck => Cppcheck.Method
  | imagemagick6 => ImageMagick6.Method
  | vectorscan_test_package => VectorscanTestPackage.Method
  end.

Definition run `{Library} (r : Recipe) : Method r -> ConanFile r -> result unit :=
  match r with
  | cppcheck => Cppcheck.run
  | imagemagick6 => ImageMagick6.run
  | vectorscan_test_package => VectorscanTestPackage.run
  end.

(** Every option declaration with its defaults. *)
Definition declared_options (r : Recipe)
    : list (string * list PyLit) * list (string * PyLit) :=
  match r with
  | cppcheck => (Cppcheck.options, Cppcheck.default_options)
  | imagemagick6 => (ImageMagick6.options, ImageMagick6.default_options)
  | vectorscan_test_package => ([], [])
  end.

End Repository.

(** ** Requirement references and version ranges *)

Module Reference.

(** Text before and after the first occurrence of the character [sep]:
    [s.partition(sep)] without the separator. *)
Fixpoint partition (sep : ascii) (s : string) : string * string :=
  match s with
  | EmptyString => (EmptyString, EmptyString)
  | String a r =>
      if bool_decide (a = sep) then (EmptyString, r)
      else let '(x, y) := partition sep r in (String a x, y)
  end.

(** ["name/version"] *)
Definition ref_name (ref : string) : string := (partition "/" ref).1.
Definition ref_version (ref : string) : string := (partition "/" ref).2.

Definition is_digit (a : ascii) : bool :=
  let n := nat_of_ascii a in (48 <=? n)%nat && (n <=? 57)%nat.

Fixpoint all_digits (s : string) : bool :=
  match s with
  | EmptyString => true
  | String a r => is_digit a && all_digits r
  end.

(** A non-empty run of decimal digits. *)
Definition is_number (s : string) : bool :=
  match s with
  | EmptyString => false
  | _ => all_digits s
  end.

(** Numbers separated by single dots: [5.4.5], [6]. *)
Fixpoint dotted_numeric_fuel (fuel : nat) (s : string) : bool :=
  match fuel with
  | O => false
  | S fuel =>
      let '(x, y) := partition "." s in
      if bool_decide (x = s) then is_number s
      else is_number x && dotted_numeric_fuel fuel y
  end.

Definition dotted_numeric (s : string) : bool :=
  dotted_numeric_fuel (S (String.length s)) s.

(** A version is a range when it is written in square brackets. *)
Definition is_version_range (v : string) : bool := String.prefix "[" v.

(** The range grammar ["[>=<lower> <<upper>]"]. *)
Definition well_formed_range (v : string) : Prop :=
  exists lower upper : string,
    v = "[>=" +:+ lower +:+ " <" +:+ upper +:+ "]"
    /\ dotted_numeric lower = true
    /\ dotted_numeric upper = true.

(** The packages the recipe of ImageMagick 6 requires by range. *)
Definition ranged_packages : list string :=
  ["xz_utils"; "libheif"; "openjpeg"; "libpng"; "libtiff"; "libwebp"].

End Reference.

(** * Statements used by the properties *)

(** ** The dependency list of ImageMagick 6 in closed form *)

Definition imagemagick6_added (o : ImageMagick6.OptionValues) : list string :=
  (if ImageMagick6.with_zlib o then ["zlib/1.3.1"] else [])
  ++ (if ImageMagick6.with_bzlib o then ["bzip2/1.0.8"] else [])
  ++ (if ImageMagick6.with_lzma o then ["xz_utils/[>=5.4.5 <6]"] else [])
  ++ (if ImageMagick6.with_lcms o then ["lcms/2.16"] else [])
  ++ (if ImageMagick6.with_openexr o then ["openexr/3.1.9"] else [])
  ++ (if ImageMagick6.with_heic o then ["libheif/[>=1.16.2 <2]"] else [])
  ++ (if ImageMagick6.with_jbig o then ["jbig/20160605"] else [])
  ++ (match ImageMagick6.with_jpeg o with
      | ImageMagick6.jpeg_none => []
      | ImageMagick6.jpeg_libjpeg => ["libjpeg/9e"]
      | ImageMagick6.jpeg_libjpeg_turbo => ["libjpeg-turbo/3.0.3"]
      end)
  ++ (if ImageMagick6.with_openjp2 o then ["openjpeg/[>=2.5.2 <3]"] else [])
  ++ (if ImageMagick6.with_pango o then ["pango/1.50.14"] else [])
  ++ (if ImageMagick6.with_png o then ["libpng/[>=1.6.48 <2]"] else [])
  ++ (if ImageMagick6.with_tiff o then ["libtiff/[>=4.6.0 <5]"; "zstd/1.5.7"] else [])
  ++ (if ImageMagick6.with_webp o then ["libwebp/[>=1.3.2 <2]"] else [])
  ++ (if ImageMagick6.with_xml2 o then ["libxml2/2.12.7"] else [])
  ++ (if ImageMagick6.with_freetype o then ["freetype/2.13.2"] else []).

(** ** Declared options and their defaults *)

(** Each declared option has a default among its allowed values, and each
    default belongs to a declared option. *)
Definition defaults_allowed (opts : list (string * list PyLit))
    (defs : list (string * PyLit)) : Prop :=
  Forall (fun entry => exists d, assoc entry.1 defs = Some d /\ d ∈ entry.2) opts
  /\ Forall (fun entry => exists allowed,
               assoc entry.1 opts = Some allowed /\ entry.2 ∈ allowed) defs.

(** The same check on the values as Conan stores them, as text. *)
Definition defaults_allowed_stored (opts : list (string * list PyLit))
    (defs : list (string * PyLit)) : Prop :=
  Forall (fun entry => exists d, assoc entry.1 defs = Some d
                                 /\ store d ∈ store <$> entry.2) opts.

(** ** Reading a configure argument list *)

(** The arguments that set the flag [name], written [name=value]. *)
Definition arguments_for (name : string) (args : list string) : list string :=
  List.filter (String.prefix (name +:+ "=")) args.


(** ** Reading the result of [package_info] *)

(** [self.cpp_info.components[name]] read back. *)
Definition component_at (name : string) (p : ImageMagick6.PackageInfo)
    : ImageMagick6.Component :=
  default ImageMagick6.new_component (ImageMagick6.components p !! name).

Definition libs_of (k : ImageMagick6.Component) : list string :=
  ImageMagick6.libs k.

(** [get_property("pkg_config_name")] of a component. *)
Definition pkg_config_name_of (k : ImageMagick6.Component) : option string :=
  ImageMagick6.comp_properties k !! "pkg_config_name".

(** A change of one component that leaves what [view] reads as it was. *)
Definition keeps {A : Type} (view : ImageMagick6.Component -> A)
    (f : ImageMagick6.Component -> ImageMagick6.Component) : Prop :=
  forall k, view (f k) = view k.

(** A step of [package_info] that leaves what [view] reads, in every
    component, as it was. *)
Definition Keeps {A : Type} (view : ImageMagick6.Component -> A)
    (g : ImageMagick6.PackageInfo -> ImageMagick6.PackageInfo) : Prop :=
  forall n p, view (component_at n (g p)) = view (component_at n p).

(** The decimal text of a quantum depth. *)
Definition quantum_depth_text (q : ImageMagick6.QuantumDepth) : string :=
  match q with
  | ImageMagick6.Q8 => "8"
  | ImageMagick6.Q16 => "16"
  | ImageMagick6.Q32 => "32"
  end.

(** ** Which method raises, and on which operating system *)

Definition is_imagemagick6_validate (r : Repository.Recipe) : Repository.Method r -> bool :=
  match r with
  | Repository.imagemagick6 => fun m =>
      match m with
      | ImageMagick6.m_validate => true
      | _ => false
      end
  | _ => fun _ => false
  end.

(** [self.settings.os] of the recipe that runs. *)
Definition os_setting (r : Repository.Recipe) : Repository.ConanFile r -> option string :=
  match r with
  | Repository.cppcheck => fun c => item_value (os (Cppcheck.settings c))
  | Repository.imagemagick6 => fun c => item_value (os (ImageMagick6.settings c))
  | Repository.vectorscan_test_package => fun c =>
      item_value (os (VectorscanTestPackage.settings c))
  end.

(** ** Worked examples *)

(** A stand-in for Conan in the examples: the major of a version is the text
    before its first dot, versions compare as text, the package id lists
    what is left in [self.info], and the entry of a requirement names the
    reference with the four settings the dependency is built with. *)
Definition example_library : Library :=
  {| Version_major := fun v => (Reference.partition "." v).1;
     Version_ge := fun v w => String.leb w v;
     Version_lt := fun v w => negb (String.leb w v);
     info_package_id := fun i =>
       String.concat ";" ((map_to_list (info_settings i)).*1 ++ info_requires i);
     dependency_info := fun ref s =>
       ref +:+ ":" +:+ String.concat ","
         (option_str <$> [ item_value (os s); item_value (arch s);
                           item_value (compiler s); item_value (build_type s) ]) |}.

Definition example_setting (v : string) : SettingsItem :=
  {| item_value := Some v; item_subsettings := [] |}.

Definition example_settings (compiler_name build : string) : Settings :=
  {| os := example_setting "Linux";
     arch := example_setting "x86_64";
     compiler := {| item_value := Some compiler_name;
                    item_subsettings := [("version", "13")] |};
     build_type := example_setting build |}.

(** The recipe of ImageMagick 6.9.12-85 with its default options. *)
Definition example_imagemagick6 : ImageMagick6.ConanFile :=
  {| ImageMagick6.version := "6.9.12-85";
     ImageMagick6.settings := example_settings "gcc" "Release";
     ImageMagick6.self_options :=
       {| ImageMagick6.shared := false; ImageMagick6.fPIC := Some true;
          ImageMagick6.hdri := true; ImageMagick6.quantum_depth := ImageMagick6.Q16;
          ImageMagick6.with_zlib := true; ImageMagick6.with_bzlib := true;
          ImageMagick6.with_lzma := true; ImageMagick6.with_lcms := true;
          ImageMagick6.with_openexr := false; ImageMagick6.with_heic := true;
          ImageMagick6.with_jbig := true;
          ImageMagick6.with_jpeg := ImageMagick6.jpeg_libjpeg;
          ImageMagick6.with_openjp2 := true; ImageMagick6.with_pango := false;
          ImageMagick6.with_png := true; ImageMagick6.with_tiff := true;
          ImageMagick6.with_webp := true; ImageMagick6.with_xml2 := false;
          ImageMagick6.with_freetype := false; ImageMagick6.with_djvu := false;
          ImageMagick6.utilities := true |};
     ImageMagick6.source_folder := "source";
     ImageMagick6.package_folder := "package" |}.

Definition example_cppcheck (compiler_name build : string) : Cppcheck.ConanFile :=
  {| Cppcheck.version := "2.16.0";
     Cppcheck.settings := example_settings compiler_name build;
     Cppcheck.self_options := {| Cppcheck.have_rules := true |};
     Cppcheck.source_folder := "src";
     Cppcheck.package_folder := "package" |}.

(** The same recipe built without rules, so without pcre. *)
Definition example_cppcheck_without_rules (compiler_name build : string)
    : Cppcheck.ConanFile :=
  {| Cppcheck.version := "2.16.0";
     Cppcheck.settings := example_settings compiler_name build;
     Cppcheck.self_options := {| Cppcheck.have_rules := false |};
     Cppcheck.source_folder := "src";
     Cppcheck.package_folder := "package" |}.

(** ** Statements about the rest of the recipes *)

(** The two warnings of [validate]. *)
Definition pango_warning : string :=
  "Building ImageMagick with Pango on macOS might require X11/Quartz or specific setup.".

Definition djvu_warning : string :=
  "Conan package for DjVuLibre is not commonly available. Ensure it's system-installed if this option is True.".

(** Every reference [requirements] of ImageMagick 6 can add, in its order. *)
Definition imagemagick6_all_references : list string :=
  [ "zlib/1.3.1"; "bzip2/1.0.8"; "xz_utils/[>=5.4.5 <6]"; "lcms/2.16";
    "openexr/3.1.9"; "libheif/[>=1.16.2 <2]"; "jbig/20160605";
    "libjpeg/9e"; "libjpeg-turbo/3.0.3"; "openjpeg/[>=2.5.2 <3]";
    "pango/1.50.14"; "libpng/[>=1.6.48 <2]"; "libtiff/[>=4.6.0 <5]";
    "zstd/1.5.7"; "libwebp/[>=1.3.2 <2]"; "libxml2/2.12.7"; "freetype/2.13.2" ].

(** The target [pkg::pkg] of the package a reference names. *)
Definition component_target (ref : string) : string :=
  Reference.ref_name ref +:+ "::" +:+ Reference.ref_name ref.

Definition requires_of (k : ImageMagick6.Component) : list string :=
  ImageMagick6.comp_requires k.

Definition defines_of (k : ImageMagick6.Component) : list string :=
  ImageMagick6.defines k.

Definition system_libs_of (k : ImageMagick6.Component) : list string :=
  ImageMagick6.system_libs k.

(** [get_property("cmake_target_name")] of a component. *)
Definition cmake_target_name_of (k : ImageMagick6.Component) : option string :=
  ImageMagick6.comp_properties k !! "cmake_target_name".

(** The names of the components a package info holds. *)
Definition component_names (p : ImageMagick6.PackageInfo) : gset string :=
  dom (ImageMagick6.components p).

(** [q] holds the components of [p] and, besides, only core modules. *)
Definition adds_modules_only (p q : ImageMagick6.PackageInfo) : Prop :=
  component_names p ⊆ component_names q
  /\ component_names q ⊆ component_names p ∪ list_to_set ImageMagick6._modules.

(** The flag an argument sets: its text before the first [=]. *)
Definition flag_name (arg : string) : string := (Reference.partition "=" arg).1.

(** A step of [package_info] that creates no component besides core modules. *)
Definition module_step
    (g : ImageMagick6.PackageInfo -> ImageMagick6.PackageInfo) : Prop :=
  forall p q, adds_modules_only p q -> adds_modules_only p (g q).

(** A step of [package_info] that leaves [self.runenv_info] as it was. *)
Definition keeps_runenv
    (g : ImageMagick6.PackageInfo -> ImageMagick6.PackageInfo) : Prop :=
  forall p, ImageMagick6.runenv_path (g p) = ImageMagick6.runenv_path p.

(** The same recipe configured for Windows. *)
Definition example_imagemagick6_windows : ImageMagick6.ConanFile :=
  {| ImageMagick6.version := "6.9.12-85";
     ImageMagick6.settings :=
       {| os := example_setting "Windows";
          arch := example_setting "x86_64";
          compiler := example_setting "msvc";
          build_type := example_setting "Release" |};
     ImageMagick6.self_options := ImageMagick6.self_options example_imagemagick6;
     ImageMagick6.source_folder := "source";
     ImageMagick6.package_folder := "package" |}.

(** The linker flag [generate] adds for shared builds on Apple systems. *)
Definition headerpad_flag : string := "-Wl,-headerpad_max_install_names".

(** * Properties *)

(** ** Option values and conditional statements *)

Lemma truthy_flag (b : bool) : truthy (ImageMagick6.flag b) = b.
Proof. by destruct b. Qed.

Lemma option_eq_libjpeg (o : ImageMagick6.OptionValues) :
  option_eq (ImageMagick6.opt_with_jpeg o) (PyStr "libjpeg")
  = bool_decide (ImageMagick6.with_jpeg o = ImageMagick6.jpeg_libjpeg).
Proof. unfold ImageMagick6.opt_with_jpeg. by destruct (ImageMagick6.with_jpeg o). Qed.

Lemma option_eq_libjpeg_turbo (o : ImageMagick6.OptionValues) :
  option_eq (ImageMagick6.opt_with_jpeg o) (PyStr "libjpeg-turbo")
  = bool_decide (ImageMagick6.with_jpeg o = ImageMagick6.jpeg_libjpeg_turbo).
Proof. unfold ImageMagick6.opt_with_jpeg. by destruct (ImageMagick6.with_jpeg o). Qed.

Lemma truthy_with_jpeg (o : ImageMagick6.OptionValues) :
  truthy (ImageMagick6.opt_with_jpeg o)
  = negb (bool_decide (ImageMagick6.with_jpeg o = ImageMagick6.jpeg_none)).
Proof. unfold ImageMagick6.opt_with_jpeg. by destruct (ImageMagick6.with_jpeg o). Qed.

Lemma when_requires (b : bool) (ref : string) (deps : list string) :
  when b (requires ref) deps = deps ++ (if b then [ref] else []).
Proof. destruct b; simpl; [done | by rewrite app_nil_r]. Qed.

Lemma when_elif_requires (b1 b2 : bool) (r1 r2 : string) (deps : list string) :
  when_elif b1 (requires r1) b2 (requires r2) deps
  = deps ++ (if b1 then [r1] else if b2 then [r2] else []).
Proof. destruct b1, b2; simpl; try done; by rewrite app_nil_r. Qed.

Lemma when_requires_two (b : bool) (r1 r2 : string) (deps : list string) :
  when b (fun deps => requires r2 (requires r1 deps)) deps
  = deps ++ (if b then [r1; r2] else []).
Proof.
  destruct b; simpl; [| by rewrite app_nil_r].
  unfold requires. by rewrite <- app_assoc.
Qed.

Lemma elem_of_if_singleton (b : bool) (x ref : string) :
  x ∈ (if b then [ref] else []) ↔ b = true ∧ x = ref.
Proof.
  destruct b.
  - rewrite list_elem_of_singleton. split; [by intros -> | by intros [_ ->]].
  - rewrite elem_of_nil. split; [done | by intros [? _]].
Qed.

Lemma elem_of_if_pair (b : bool) (x r1 r2 : string) :
  x ∈ (if b then [r1; r2] else []) ↔ b = true ∧ (x = r1 ∨ x = r2).
Proof.
  destruct b.
  - rewrite elem_of_cons, list_elem_of_singleton. split; [by intros ? | by intros [_ ?]].
  - rewrite elem_of_nil. split; [done | by intros [? _]].
Qed.

Lemma imagemagick6_requirements_closed_form (c : ImageMagick6.ConanFile) (deps : list string) :
  ImageMagick6.requirements c deps
  = deps ++ imagemagick6_added (ImageMagick6.self_options c).
Proof.
  unfold ImageMagick6.requirements, imagemagick6_added. cbv zeta.
  rewrite !truthy_flag, option_eq_libjpeg, option_eq_libjpeg_turbo.
  rewrite when_elif_requires, when_requires_two, !when_requires.
  rewrite <- !app_assoc. do 8 f_equal.
  by destruct (ImageMagick6.with_jpeg (ImageMagick6.self_options c)).
Qed.

Ltac requirement_cases :=
  unfold imagemagick6_added;
  rewrite ?elem_of_app, ?elem_of_if_singleton, ?elem_of_if_pair,
    ?elem_of_nil, ?list_elem_of_singleton.

(** ** Declared options and their defaults *)

Ltac check_entries :=
  repeat apply Forall_cons_2; try apply Forall_nil_2;
  (eexists; split; [reflexivity | simpl; repeat constructor]).

(** C3: for every option declared by the cppcheck recipe and by the
    imagemagick6 recipe, the default listed in [default_options] is a member
    of the option's declared list of allowed values (as literals, and as the
    text Conan stores); the test package of vectorscan declares no option. *)
Theorem default_options_are_allowed (r : Repository.Recipe) :
  defaults_allowed (Repository.declared_options r).1 (Repository.declared_options r).2
  /\ defaults_allowed_stored (Repository.declared_options r).1
       (Repository.declared_options r).2.
Proof.
  destruct r; (split; [split |]); simpl;
    unfold Cppcheck.options, Cppcheck.default_options,
      ImageMagick6.options, ImageMagick6.default_options, ImageMagick6.bools;
    check_entries.
Qed.

(** ** Requirements *)

(** C5: the [requirements] method of the cppcheck recipe adds ["pcre/8.45"]
    to the dependency list exactly when [have_rules] is true, and adds nothing
    else whatever the options are. *)
Theorem cppcheck_requirements_pcre (c : Cppcheck.ConanFile) (deps : list string) :
  Cppcheck.requirements c deps
  = deps ++ (if Cppcheck.have_rules (Cppcheck.self_options c) then ["pcre/8.45"] else [])
  /\ ("pcre/8.45" ∈ Cppcheck.requirements c []
      <-> Cppcheck.have_rules (Cppcheck.self_options c) = true)
  /\ (forall ref, ref ∈ Cppcheck.requirements c [] -> ref = "pcre/8.45").
Proof.
  unfold Cppcheck.requirements, Cppcheck.get_safe. simpl.
  destruct (Cppcheck.have_rules (Cppcheck.self_options c)); simpl; unfold requires.
  - split; [done |]. split.
    + split; [done | intros _; apply list_elem_of_singleton; done].
    + by intros ref ->%list_elem_of_singleton.
  - rewrite app_nil_r. split; [done |]. split.
    + split; [by intros ?%elem_of_nil | done].
    + by intros ref ?%elem_of_nil.
Qed.

(** C6: the [requirements] method of the imagemagick6 recipe adds
    ["libjpeg/9e"] exactly when [with_jpeg] is ["libjpeg"], adds
    ["libjpeg-turbo/3.0.3"] exactly when it is ["libjpeg-turbo"], adds neither
    when it is [None], and never adds both. *)
Theorem imagemagick6_requirements_jpeg (c : ImageMagick6.ConanFile) (deps : list string) :
  exists added,
    ImageMagick6.requirements c deps = deps ++ added
    /\ ("libjpeg/9e" ∈ added
        <-> ImageMagick6.with_jpeg (ImageMagick6.self_options c) = ImageMagick6.jpeg_libjpeg)
    /\ ("libjpeg-turbo/3.0.3" ∈ added
        <-> ImageMagick6.with_jpeg (ImageMagick6.self_options c)
            = ImageMagick6.jpeg_libjpeg_turbo)
    /\ (ImageMagick6.with_jpeg (ImageMagick6.self_options c) = ImageMagick6.jpeg_none
        -> ("libjpeg/9e" ∉ added) /\ ("libjpeg-turbo/3.0.3" ∉ added))
    /\ (~ ("libjpeg/9e" ∈ added /\ "libjpeg-turbo/3.0.3" ∈ added)).
Proof.
  exists (imagemagick6_added (ImageMagick6.self_options c)).
  split; [apply imagemagick6_requirements_closed_form |].
  assert (Hj : "libjpeg/9e" ∈ imagemagick6_added (ImageMagick6.self_options c)
               <-> ImageMagick6.with_jpeg (ImageMagick6.self_options c)
                   = ImageMagick6.jpeg_libjpeg).
  { requirement_cases.
    destruct (ImageMagick6.with_jpeg (ImageMagick6.self_options c));
      rewrite ?elem_of_nil, ?list_elem_of_singleton;
      intuition (try discriminate; try congruence). }
  assert (Ht : "libjpeg-turbo/3.0.3" ∈ imagemagick6_added (ImageMagick6.self_options c)
               <-> ImageMagick6.with_jpeg (ImageMagick6.self_options c)
                   = ImageMagick6.jpeg_libjpeg_turbo).
  { requirement_cases.
    destruct (ImageMagick6.with_jpeg (ImageMagick6.self_options c));
      rewrite ?elem_of_nil, ?list_elem_of_singleton;
      intuition (try discriminate; try congruence). }
  split; [exact Hj |]. split; [exact Ht |]. split.
  - intros Hn. rewrite Hj, Ht, Hn. split; discriminate.
  - rewrite Hj, Ht. intros [-> ?]. discriminate.
Qed.

(** ** Version ranges *)

Lemma well_formed_range_intro (lower upper : string) :
  Reference.dotted_numeric lower = true ->
  Reference.dotted_numeric upper = true ->
  Reference.well_formed_range ("[>=" +:+ lower +:+ " <" +:+ upper +:+ "]").
Proof. intros Hl Hu. by exists lower, upper. Qed.

Lemma range_xz_utils : Reference.well_formed_range "[>=5.4.5 <6]".
Proof. by apply (well_formed_range_intro "5.4.5" "6"). Qed.

Lemma range_libheif : Reference.well_formed_range "[>=1.16.2 <2]".
Proof. by apply (well_formed_range_intro "1.16.2" "2"). Qed.

Lemma range_openjpeg : Reference.well_formed_range "[>=2.5.2 <3]".
Proof. by apply (well_formed_range_intro "2.5.2" "3"). Qed.

Lemma range_libpng : Reference.well_formed_range "[>=1.6.48 <2]".
Proof. by apply (well_formed_range_intro "1.6.48" "2"). Qed.

Lemma range_libtiff : Reference.well_formed_range "[>=4.6.0 <5]".
Proof. by apply (well_formed_range_intro "4.6.0" "5"). Qed.

Lemma range_libwebp : Reference.well_formed_range "[>=1.3.2 <2]".
Proof. by apply (well_formed_range_intro "1.3.2" "2"). Qed.

Lemma ranged_package_dec (n : string) :
  bool_decide (n ∈ Reference.ranged_packages) = true <-> n ∈ Reference.ranged_packages.
Proof. apply bool_decide_eq_true. Qed.

Ltac ranged ok :=
  split; [split; intros _; [apply ranged_package_dec; vm_compute; reflexivity | reflexivity]
         | intros _; exact ok].

Ltac unranged :=
  split; [split; [intros E; vm_compute in E; discriminate
                 | intros E%ranged_package_dec; vm_compute in E; discriminate]
         | intros E; vm_compute in E; discriminate].

(** C7: every requirement of the imagemagick6 recipe that is written with a
    version range is one of xz_utils, libheif, openjpeg, libpng, libtiff and
    libwebp, each of these is required by range, and the range has the form
    ["[>=<lower> <<upper>]"] with dotted numeric bounds. *)
Theorem imagemagick6_version_ranges_well_formed
    (c : ImageMagick6.ConanFile) (ref : string) :
  ref ∈ ImageMagick6.requirements c [] ->
  (Reference.is_version_range (Reference.ref_version ref) = true
   <-> Reference.ref_name ref ∈ Reference.ranged_packages)
  /\ (Reference.is_version_range (Reference.ref_version ref) = true
      -> Reference.well_formed_range (Reference.ref_version ref)).
Proof.
  rewrite imagemagick6_requirements_closed_form. simpl. requirement_cases.
  destruct (ImageMagick6.with_jpeg (ImageMagick6.self_options c));
    rewrite ?elem_of_nil, ?list_elem_of_singleton;
    intros H;
    repeat match goal with
           | E : _ ∨ _ |- _ => destruct E as [E | E]
           | E : _ ∧ _ |- _ => destruct E as [_ E]
           | E : False |- _ => destruct E
           end;
    subst ref;
    first [ unranged
          | ranged range_xz_utils | ranged range_libheif | ranged range_openjpeg
          | ranged range_libpng | ranged range_libtiff | ranged range_libwebp ].
Qed.

(** The range of xz_utils with the default options. *)
Lemma imagemagick6_version_ranges_witness :
  "xz_utils/[>=5.4.5 <6]" ∈ ImageMagick6.requirements example_imagemagick6 []
  /\ (Reference.is_version_range (Reference.ref_version "xz_utils/[>=5.4.5 <6]") = true
      <-> Reference.ref_name "xz_utils/[>=5.4.5 <6]" ∈ Reference.ranged_packages)
  /\ (Reference.is_version_range (Reference.ref_version "xz_utils/[>=5.4.5 <6]") = true
      -> Reference.well_formed_range (Reference.ref_version "xz_utils/[>=5.4.5 <6]")).
Proof.
  assert (Hin : "xz_utils/[>=5.4.5 <6]"
                ∈ ImageMagick6.requirements example_imagemagick6 []).
  { vm_compute. repeat constructor. }
  split; [exact Hin |].
  exact (imagemagick6_version_ranges_well_formed
           example_imagemagick6 "xz_utils/[>=5.4.5 <6]" Hin).
Defined.

(** ** Configure arguments *)

Lemma generate_configure_args (c : ImageMagick6.ConanFile)
    (tc : ImageMagick6.AutotoolsToolchain) :
  ImageMagick6.tc_configure_args (ImageMagick6.generate c tc)
  = ImageMagick6.tc_configure_args tc ++ ImageMagick6.configure_args c.
Proof.
  unfold ImageMagick6.generate.
  by destruct (ImageMagick6.is_apple_os c
               && truthy (ImageMagick6.flag (ImageMagick6.shared (ImageMagick6.self_options c)))).
Qed.

Lemma elem_of_arguments_for (name x : string) (args : list string) :
  x ∈ arguments_for name args <-> x ∈ args /\ String.prefix (name +:+ "=") x = true.
Proof. unfold arguments_for. rewrite !list_elem_of_In. apply filter_In. Qed.


Lemma arguments_for_jpeg (c : ImageMagick6.ConanFile) :
  arguments_for "--with-jpeg" (ImageMagick6.configure_args c)
  = ["--with-jpeg=" +:+ ImageMagick6.yes_no
       (truthy (ImageMagick6.opt_with_jpeg (ImageMagick6.self_options c)))].
Proof.
  unfold ImageMagick6.configure_args, ImageMagick6.opt_with_jpeg. cbv zeta.
  rewrite !truthy_flag.
  destruct (ImageMagick6.with_jpeg (ImageMagick6.self_options c)); by vm_compute.
Qed.

(** C4: whatever the options are, the only [--with-jpeg] argument that
    [generate] produces is ["--with-jpeg=yes"] when [with_jpeg] is ["libjpeg"]
    or ["libjpeg-turbo"] and ["--with-jpeg=no"] when it is [None]: the value
    is the truth value of the option, never the name of the backend. *)
Theorem imagemagick6_with_jpeg_argument (c : ImageMagick6.ConanFile)
    (tc : ImageMagick6.AutotoolsToolchain) :
  let expected :=
    match ImageMagick6.with_jpeg (ImageMagick6.self_options c) with
    | ImageMagick6.jpeg_libjpeg | ImageMagick6.jpeg_libjpeg_turbo => "--with-jpeg=yes"
    | ImageMagick6.jpeg_none => "--with-jpeg=no"
    end in
  arguments_for "--with-jpeg" (ImageMagick6.configure_args c) = [expected]
  /\ expected ∈ ImageMagick6.tc_configure_args (ImageMagick6.generate c tc)
  /\ expected = "--with-jpeg=" +:+ ImageMagick6.yes_no
                  (truthy (ImageMagick6.opt_with_jpeg (ImageMagick6.self_options c)))
  /\ ("--with-jpeg=libjpeg" ∉ ImageMagick6.configure_args c)
  /\ ("--with-jpeg=libjpeg-turbo" ∉ ImageMagick6.configure_args c).
Proof.
  intros expected.
  assert (He : expected = "--with-jpeg=" +:+ ImageMagick6.yes_no
                 (truthy (ImageMagick6.opt_with_jpeg (ImageMagick6.self_options c)))).
  { subst expected. unfold ImageMagick6.opt_with_jpeg.
    by destruct (ImageMagick6.with_jpeg (ImageMagick6.self_options c)). }
  assert (Hf : arguments_for "--with-jpeg" (ImageMagick6.configure_args c) = [expected]).
  { rewrite He. apply arguments_for_jpeg. }
  assert (Hin : expected ∈ ImageMagick6.configure_args c).
  { apply (elem_of_arguments_for "--with-jpeg"). rewrite Hf. apply list_elem_of_singleton.
    reflexivity. }
  split; [exact Hf |]. split.
  { rewrite generate_configure_args. apply elem_of_app. by right. }
  split; [exact He |].
  split; intros Hbad;
    (assert (Hx : _ ∈ arguments_for "--with-jpeg" (ImageMagick6.configure_args c))
       by (apply elem_of_arguments_for; split; [exact Hbad | reflexivity]));
    rewrite Hf in Hx; apply list_elem_of_singleton in Hx; subst expected;
    destruct (ImageMagick6.with_jpeg (ImageMagick6.self_options c)); discriminate.
Qed.



(** ** Text *)

Lemma append_cons (a : ascii) (s t : string) : String a s +:+ t = String a (s +:+ t).
Proof. reflexivity. Qed.

Lemma append_nil_r (s : string) : s +:+ "" = s.
Proof. induction s as [| a s IH]; [done |]. by rewrite append_cons, IH. Qed.

Lemma append_assoc (s t u : string) : (s +:+ t) +:+ u = s +:+ (t +:+ u).
Proof. induction s as [| a s IH]; [done |]. by rewrite !append_cons, IH. Qed.

(** ** Components written by [package_info] *)

Section Views.
Context {A : Type} (view : ImageMagick6.Component -> A).

Lemma component_at_same n f p :
  component_at n (ImageMagick6.component n f p) = f (component_at n p).
Proof. unfold component_at, ImageMagick6.component; simpl. by rewrite lookup_insert_eq. Qed.

Lemma component_at_other n m f p :
  m ≠ n -> component_at n (ImageMagick6.component m f p) = component_at n p.
Proof.
  intros Hne. unfold component_at, ImageMagick6.component; simpl.
  by rewrite lookup_insert_ne.
Qed.

Lemma Keeps_component m f : keeps view f -> Keeps view (ImageMagick6.component m f).
Proof.
  intros Hf n p. destruct (decide (m = n)) as [-> | Hne].
  - by rewrite component_at_same.
  - by rewrite component_at_other.
Qed.

Lemma Keeps_when b g : Keeps view g -> Keeps view (when b g).
Proof. intros Hg n p. destruct b; simpl; [apply Hg | done]. Qed.

Lemma Keeps_when_elif b1 g1 b2 g2 :
  Keeps view g1 -> Keeps view g2 -> Keeps view (when_elif b1 g1 b2 g2).
Proof. intros H1 H2 n p. destruct b1, b2; simpl; auto. Qed.

Lemma Keeps_then g h : Keeps view h -> Keeps view g -> Keeps view (fun p => g (h p)).
Proof. intros Hh Hg n p. by rewrite Hg, Hh. Qed.

Lemma Keeps_set_cpp_property k v : Keeps view (ImageMagick6.set_cpp_property k v).
Proof. by intros n p. Qed.

Lemma Keeps_prepend_path v : Keeps view (ImageMagick6.prepend_path v).
Proof. by intros n p. Qed.

Lemma keeps_step g n p :
  Keeps view g -> view (component_at n (g p)) = view (component_at n p).
Proof. intros Hg. apply Hg. Qed.
End Views.

Lemma component_is_Some_same n f p :
  is_Some (ImageMagick6.components (ImageMagick6.component n f p) !! n).
Proof. unfold ImageMagick6.component; simpl. rewrite lookup_insert_eq. by eexists. Qed.

Lemma component_is_Some_mono n m f p :
  is_Some (ImageMagick6.components p !! n) ->
  is_Some (ImageMagick6.components (ImageMagick6.component m f p) !! n).
Proof.
  intros Hn. unfold ImageMagick6.component; simpl.
  destruct (decide (m = n)) as [-> | Hne].
  - rewrite lookup_insert_eq. by eexists.
  - by rewrite lookup_insert_ne.
Qed.

Ltac solve_keeps_component :=
  intros ?; first [ reflexivity
                  | unfold pkg_config_name_of; simpl; apply lookup_insert_ne; discriminate ].

Ltac solve_keeps :=
  lazymatch goal with
  | |- Keeps _ (ImageMagick6.component _ _) =>
      apply Keeps_component; solve_keeps_component
  | |- Keeps _ (when _ _) => apply Keeps_when; solve_keeps
  | |- Keeps _ (when_elif _ _ _ _) => apply Keeps_when_elif; solve_keeps
  | |- Keeps _ (ImageMagick6.set_cpp_property _ _) => apply Keeps_set_cpp_property
  | |- Keeps _ (ImageMagick6.prepend_path _) => apply Keeps_prepend_path
  | |- Keeps _ (fun _ => _) => apply Keeps_then; solve_keeps
  end.

(** One statement of [package_info], read backwards from the result. *)
Ltac peel :=
  lazymatch goal with
  | |- ?view (component_at ?n (?g ?p)) = _ =>
      first [ rewrite (keeps_step view g n p) by solve_keeps
            | rewrite component_at_other by discriminate
            | rewrite component_at_same ]
  end.

Section PackageInfo.
Context `{Library}.

Lemma package_info_has_components c p base :
  base ∈ ImageMagick6._modules ->
  is_Some (ImageMagick6.components (ImageMagick6.package_info c p) !! base).
Proof.
  unfold ImageMagick6._modules. rewrite !elem_of_cons, elem_of_nil.
  unfold ImageMagick6.package_info. cbv zeta.
  intros [-> | [-> | [-> | []]]];
    repeat first [ apply component_is_Some_same | apply component_is_Some_mono ].
Qed.

Lemma package_info_libs c p base :
  base ∈ ImageMagick6._modules ->
  libs_of (component_at base (ImageMagick6.package_info c p))
  = [ImageMagick6._libname c base].
Proof.
  unfold ImageMagick6._modules. rewrite !elem_of_cons, elem_of_nil.
  unfold ImageMagick6.package_info. cbv zeta.
  intros [-> | [-> | [-> | []]]]; repeat peel; reflexivity.
Qed.

Lemma package_info_pkg_config_name c p base :
  base ∈ ImageMagick6._modules ->
  pkg_config_name_of (component_at base (ImageMagick6.package_info c p))
  = Some (ImageMagick6.pc_config_name c base).
Proof.
  unfold ImageMagick6._modules. rewrite !elem_of_cons, elem_of_nil.
  unfold ImageMagick6.package_info. cbv zeta.
  intros [-> | [-> | [-> | []]]]; repeat peel;
    unfold pkg_config_name_of; simpl; apply lookup_insert_eq.
Qed.

Lemma component_at_lookup p base :
  is_Some (ImageMagick6.components p !! base) ->
  ImageMagick6.components p !! base = Some (component_at base p).
Proof. intros [k Hk]. unfold component_at. by rewrite Hk. Qed.

Lemma libname_convention c base :
  ImageMagick6._libname c base
  = base +:+ "-" +:+ Version_major (ImageMagick6.version c) +:+ ".Q"
      +:+ quantum_depth_text (ImageMagick6.quantum_depth (ImageMagick6.self_options c))
      +:+ (if ImageMagick6.hdri (ImageMagick6.self_options c) then "HDRI" else "").
Proof.
  unfold ImageMagick6._libname, ImageMagick6.opt_quantum_depth. cbv zeta.
  rewrite truthy_flag.
  by destruct (ImageMagick6.quantum_depth (ImageMagick6.self_options c)).
Qed.

Lemma pc_config_name_libname c base :
  item_value (os (ImageMagick6.settings c)) ≠ Some "Windows" ->
  ImageMagick6.pc_config_name c base = ImageMagick6._libname c base.
Proof.
  intros Hos. unfold ImageMagick6.pc_config_name, ImageMagick6._libname, setting_eq.
  cbv zeta. rewrite truthy_flag, bool_decide_eq_false_2 by done.
  destruct (ImageMagick6.hdri (ImageMagick6.self_options c)); simpl.
  - by rewrite !append_assoc.
  - by rewrite append_nil_r.
Qed.
End PackageInfo.

(** ** Library and pkg-config names *)

(** C1: for every option configuration, the library name of each of
    MagickCore, MagickWand and Magick++ is ["<base>-<major>.Q<depth>"],
    followed by ["HDRI"] exactly when [hdri] is true, [<major>] being the
    major of the recipe version; [package_info] leaves this name as the only
    entry of the component's [libs]. *)
Theorem imagemagick6_library_names `{Library}
    (c : ImageMagick6.ConanFile) (p : ImageMagick6.PackageInfo) :
  Forall (fun base =>
    ImageMagick6._libname c base
    = base +:+ "-" +:+ Version_major (ImageMagick6.version c) +:+ ".Q"
        +:+ quantum_depth_text (ImageMagick6.quantum_depth (ImageMagick6.self_options c))
        +:+ (if ImageMagick6.hdri (ImageMagick6.self_options c) then "HDRI" else "")
    /\ ImageMagick6.libs <$> (ImageMagick6.components (ImageMagick6.package_info c p) !! base)
       = Some [ImageMagick6._libname c base])
    ImageMagick6._modules.
Proof.
  apply Forall_forall. intros base Hbase. split.
  - apply libname_convention.
  - rewrite (component_at_lookup _ _ (package_info_has_components c p base Hbase)).
    simpl. f_equal. by apply package_info_libs.
Qed.

(** C8: when the os setting is not ["Windows"], so that [validate] passes,
    the [pkg_config_name] that [package_info] gives each component is the
    library name [_libname] computes for it, HDRI suffix included. *)
Theorem imagemagick6_pkg_config_names `{Library}
    (c : ImageMagick6.ConanFile) (p : ImageMagick6.PackageInfo) :
  item_value (os (ImageMagick6.settings c)) ≠ Some "Windows" ->
  Forall (fun base =>
    (ImageMagick6.components (ImageMagick6.package_info c p) !! base)
      ≫= pkg_config_name_of
    = Some (ImageMagick6._libname c base))
    ImageMagick6._modules.
Proof.
  intros Hos. apply Forall_forall. intros base Hbase.
  rewrite (component_at_lookup _ _ (package_info_has_components c p base Hbase)).
  simpl. rewrite package_info_pkg_config_name by done.
  f_equal. by apply pc_config_name_libname.
Qed.

Lemma imagemagick6_pkg_config_names_witness :
  item_value (os (ImageMagick6.settings example_imagemagick6)) ≠ Some "Windows"
  /\ Forall (fun base =>
       (ImageMagick6.components
          (@ImageMagick6.package_info example_library example_imagemagick6
             ImageMagick6.new_package_info) !! base)
         ≫= pkg_config_name_of
       = Some (@ImageMagick6._libname example_library example_imagemagick6 base))
       ImageMagick6._modules.
Proof.
  split; [discriminate |].
  apply (@imagemagick6_pkg_config_names example_library example_imagemagick6
           ImageMagick6.new_package_info).
  discriminate.
Defined.

Example libname_6_9_12 :
  @ImageMagick6._libname example_library example_imagemagick6 "MagickCore"
  = "MagickCore-6.Q16HDRI".
Proof. reflexivity. Qed.

(** ** Raising [ConanInvalidConfiguration] *)

Lemma validate_raises (c : ImageMagick6.ConanFile) (out : list string) :
  is_invalid_configuration (ImageMagick6.validate c out) = true
  <-> item_value (os (ImageMagick6.settings c)) = Some "Windows".
Proof.
  unfold ImageMagick6.validate, setting_eq. cbv zeta.
  destruct (decide (item_value (os (ImageMagick6.settings c)) = Some "Windows")) as [E | E].
  - by rewrite bool_decide_eq_true_2.
  - by rewrite bool_decide_eq_false_2.
Qed.

Lemma cppcheck_package_id_info `{Library} (c : Cppcheck.ConanFile) :
  Cppcheck.package_id (Cppcheck.info_of c)
  = Ok {| info_settings :=
            <["os" := os (Cppcheck.settings c)]>
              (<["arch" := arch (Cppcheck.settings c)]> ∅);
          info_options := info_options (Cppcheck.info_of c);
          info_requires := info_requires (Cppcheck.info_of c) |}.
Proof.
  unfold Cppcheck.package_id, delattr_setting, Cppcheck.info_of, info_settings_of.
  simpl. simplify_map_eq. reflexivity.
Qed.

(** C2: [validate] of the imagemagick6 recipe raises
    [ConanInvalidConfiguration] exactly when the os setting is ["Windows"],
    whatever the other settings and the options are, and no other method of
    any recipe of the repository raises it. *)
Theorem invalid_configuration_only_on_windows `{Library} :
  (forall c out,
     (exists msg, ImageMagick6.validate c out = Raise (ConanInvalidConfiguration msg))
     <-> item_value (os (ImageMagick6.settings c)) = Some "Windows")
  /\ (forall r m c,
        is_invalid_configuration (Repository.run r m c) = true
        <-> is_imagemagick6_validate r m = true /\ os_setting r c = Some "Windows").
Proof.
  split.
  - intros c out. rewrite <- (validate_raises c out). split.
    + by intros [msg ->].
    + destruct (ImageMagick6.validate c out) as [? | [msg | msg]]; try done.
      intros _. by exists msg.
  - intros [] m c; simpl.
    + destruct m; simpl; rewrite ?cppcheck_package_id_info;
        (split; [done | by intros [? _]]).
    + destruct m; simpl; try (split; [done | by intros [? _]]).
      rewrite <- (validate_raises c []).
      destruct (ImageMagick6.validate c []) as [? | [msg | msg]]; simpl;
        split; try done; try (by intros [_ ?]); by intros _.
    + destruct m; simpl; split; try done; by intros [? _].
Qed.

(** ** The package id of cppcheck *)

(** C10 as stated fails: with rules enabled the recipe requires pcre, the
    entry of pcre in [self.info.requires] follows the compiler and the build
    type, and two configurations that differ only in these two settings get
    different package ids. *)
Lemma cppcheck_package_id_depends_on_pcre :
  ~ (forall (L : Library) (c1 c2 : Cppcheck.ConanFile),
       Cppcheck.self_options c1 = Cppcheck.self_options c2 ->
       os (Cppcheck.settings c1) = os (Cppcheck.settings c2) ->
       arch (Cppcheck.settings c1) = arch (Cppcheck.settings c2) ->
       @Cppcheck.package_identifier L c1 = @Cppcheck.package_identifier L c2).
Proof.
  intros Hall.
  specialize (Hall example_library
                (example_cppcheck "gcc" "Release") (example_cppcheck "clang" "Debug")
                eq_refl eq_refl eq_refl).
  vm_compute in Hall. discriminate.
Qed.

(** C10, as amended: for two configurations of the cppcheck recipe that
    differ only in [compiler] and [build_type], [package_id] succeeds on both
    and deletes both settings, so that the settings and the options left in
    [self.info] are the same; the package ids are the same whenever pcre, if
    it is required, enters [self.info.requires] the same way for both, in
    particular whenever [have_rules] is false. *)
Theorem cppcheck_package_id_own_settings `{Library} (c1 c2 : Cppcheck.ConanFile) :
  Cppcheck.self_options c1 = Cppcheck.self_options c2 ->
  os (Cppcheck.settings c1) = os (Cppcheck.settings c2) ->
  arch (Cppcheck.settings c1) = arch (Cppcheck.settings c2) ->
  exists i1 i2,
    Cppcheck.package_id (Cppcheck.info_of c1) = Ok i1
    /\ Cppcheck.package_id (Cppcheck.info_of c2) = Ok i2
    /\ info_settings i1 = info_settings i2
    /\ info_options i1 = info_options i2
    /\ info_settings i1 !! "compiler" = None
    /\ info_settings i1 !! "build_type" = None
    /\ ((Cppcheck.have_rules (Cppcheck.self_options c1) = true ->
         dependency_info "pcre/8.45" (Cppcheck.settings c1)
         = dependency_info "pcre/8.45" (Cppcheck.settings c2)) ->
        i1 = i2 /\ Cppcheck.package_identifier c1 = Cppcheck.package_identifier c2).
Proof.
  intros Hopt Hos Harch. unfold Cppcheck.package_identifier.
  rewrite !cppcheck_package_id_info.
  do 2 eexists. split; [reflexivity |]. split; [reflexivity |]. simpl.
  rewrite Hopt, Hos, Harch.
  split; [done |]. split; [done |].
  split; [by simplify_map_eq |]. split; [by simplify_map_eq |].
  intros Hdep.
  assert (Hreq : (fun ref => dependency_info ref (Cppcheck.settings c1))
                   <$> Cppcheck.requirements c1 []
                 = (fun ref => dependency_info ref (Cppcheck.settings c2))
                   <$> Cppcheck.requirements c2 []).
  { unfold Cppcheck.requirements, Cppcheck.get_safe. simpl. rewrite <- Hopt.
    destruct (Cppcheck.have_rules (Cppcheck.self_options c1)) eqn:Hrules; simpl; [| done].
    rewrite Hdep; [done | by rewrite <- Hopt]. }
  rewrite Hreq. done.
Qed.

Lemma cppcheck_package_id_own_settings_witness :
  Cppcheck.settings (example_cppcheck_without_rules "gcc" "Release")
    ≠ Cppcheck.settings (example_cppcheck_without_rules "clang" "Debug")
  /\ @Cppcheck.package_identifier example_library
       (example_cppcheck_without_rules "gcc" "Release")
     = @Cppcheck.package_identifier example_library
         (example_cppcheck_without_rules "clang" "Debug").
Proof.
  split; [discriminate |].
  destruct (@cppcheck_package_id_own_settings example_library
              (example_cppcheck_without_rules "gcc" "Release")
              (example_cppcheck_without_rules "clang" "Debug")
              eq_refl eq_refl eq_refl)
    as (i1 & i2 & _ & _ & _ & _ & _ & _ & Hsame).
  apply Hsame. discriminate.
Defined.

(** * Further properties of the recipes *)

(** ** ImageMagick 6: [config_options] and [configure] *)

(** X1: after [config_options] and [configure], [fPIC] is gone when the os is
    Windows or the build is shared and is untouched otherwise; no other
    option, setting or field changes, and running [configure] again changes
    nothing. *)
Theorem imagemagick6_fPIC_after_configure (c : ImageMagick6.ConanFile) :
  let c' := ImageMagick6.configure (ImageMagick6.config_options c) in
  ImageMagick6.fPIC (ImageMagick6.self_options c')
  = (if bool_decide (item_value (os (ImageMagick6.settings c)) = Some "Windows")
        || ImageMagick6.shared (ImageMagick6.self_options c)
     then None
     else ImageMagick6.fPIC (ImageMagick6.self_options c))
  /\ ImageMagick6.remove_fPIC (ImageMagick6.self_options c')
     = ImageMagick6.remove_fPIC (ImageMagick6.self_options c)
  /\ ImageMagick6.settings c' = ImageMagick6.settings c
  /\ ImageMagick6.version c' = ImageMagick6.version c
  /\ ImageMagick6.configure c' = c'.
Proof.
  unfold ImageMagick6.configure, ImageMagick6.config_options, setting_eq, when.
  destruct c as [v s o sf pf]. simpl.
  destruct (bool_decide (item_value (os s) = Some "Windows")); simpl;
    rewrite ?truthy_flag; destruct o as [sh fp]; simpl;
    destruct sh; simpl; rewrite ?truthy_flag; simpl; done.
Qed.

(** ** ImageMagick 6: [validate] *)

(** X2: off Windows [validate] never raises: it returns the output it was
    given, followed by the Pango warning exactly when [with_pango] is set on
    macOS and by the DjVu warning exactly when [with_djvu] is set. *)
Theorem imagemagick6_validate_warnings (c : ImageMagick6.ConanFile) (out : list string) :
  item_value (os (ImageMagick6.settings c)) ≠ Some "Windows" ->
  ImageMagick6.validate c out
  = Ok (out
        ++ (if ImageMagick6.with_pango (ImageMagick6.self_options c)
               && bool_decide (item_value (os (ImageMagick6.settings c)) = Some "Macos")
            then [pango_warning] else [])
        ++ (if ImageMagick6.with_djvu (ImageMagick6.self_options c)
            then [djvu_warning] else [])).
Proof.
  intros Hos. unfold ImageMagick6.validate, setting_eq. cbv zeta.
  rewrite (bool_decide_eq_false_2 _ Hos), !truthy_flag.
  unfold when, ImageMagick6.warning, pango_warning, djvu_warning.
  destruct (ImageMagick6.with_pango (ImageMagick6.self_options c)
            && bool_decide (item_value (os (ImageMagick6.settings c)) = Some "Macos"));
    destruct (ImageMagick6.with_djvu (ImageMagick6.self_options c));
    rewrite <- ?app_assoc, ?app_nil_r; reflexivity.
Qed.

Lemma imagemagick6_validate_warnings_witness :
  item_value (os (ImageMagick6.settings example_imagemagick6)) ≠ Some "Windows"
  /\ ImageMagick6.validate example_imagemagick6 ["checking"] = Ok ["checking"].
Proof.
  split; [discriminate |].
  rewrite (imagemagick6_validate_warnings example_imagemagick6 ["checking"]);
    [reflexivity | discriminate].
Defined.

(** ** ImageMagick 6: [requirements] *)

Lemma sublist_if_singleton (b : bool) (x : string) :
  sublist (if b then [x] else []) [x].
Proof. destruct b; [done | apply sublist_nil_l]. Qed.

Lemma sublist_app_if (b : bool) (x : string) (l k : list string) :
  sublist l k -> sublist ((if b then [x] else []) ++ l) (x :: k).
Proof. intros Hl. destruct b; simpl; [by apply sublist_skip | by apply sublist_cons]. Qed.

Lemma sublist_app_if_pair (b : bool) (x y : string) (l k : list string) :
  sublist l k -> sublist ((if b then [x; y] else []) ++ l) (x :: y :: k).
Proof.
  intros Hl. destruct b; simpl.
  - by do 2 apply sublist_skip.
  - by do 2 apply sublist_cons.
Qed.

Ltac sublist_steps :=
  repeat first [ apply sublist_app_if | apply sublist_app_if_pair
               | apply sublist_if_singleton ].

Lemma imagemagick6_added_sublist (o : ImageMagick6.OptionValues) :
  sublist (imagemagick6_added o) imagemagick6_all_references.
Proof.
  unfold imagemagick6_added, imagemagick6_all_references. sublist_steps.
  destruct (ImageMagick6.with_jpeg o); simpl.
  - do 2 apply sublist_cons. sublist_steps.
  - apply sublist_skip, sublist_cons. sublist_steps.
  - apply sublist_cons, sublist_skip. sublist_steps.
Qed.

Lemma imagemagick6_added_length (o : ImageMagick6.OptionValues) :
  length (imagemagick6_added o) <= 16.
Proof.
  assert (exists k, sublist (imagemagick6_added o) k /\ length k <= 16) as (k & Hk & Hlen).
  { unfold imagemagick6_added.
    destruct (ImageMagick6.with_jpeg o); eexists;
      (split; [sublist_steps; simpl; try apply sublist_skip; sublist_steps | simpl; lia]). }
  apply sublist_length in Hk. lia.
Qed.

(** X3: whatever the options are, the references [requirements] adds to an
    empty dependency list name pairwise different packages, come in the
    order of the recipe, and are at most sixteen. *)
Theorem imagemagick6_requirements_distinct (c : ImageMagick6.ConanFile) :
  NoDup (Reference.ref_name <$> ImageMagick6.requirements c [])
  /\ sublist (ImageMagick6.requirements c []) imagemagick6_all_references
  /\ length (ImageMagick6.requirements c []) <= 16.
Proof.
  rewrite imagemagick6_requirements_closed_form. simpl.
  pose proof (imagemagick6_added_sublist (ImageMagick6.self_options c)) as Hsub.
  split; [| split; [exact Hsub | apply imagemagick6_added_length]].
  apply (sublist_NoDup _ (Reference.ref_name <$> imagemagick6_all_references));
    [| apply (fmap_sublist Reference.ref_name), Hsub].
  apply (bool_decide_unpack (NoDup (Reference.ref_name <$> imagemagick6_all_references))).
  by vm_compute.
Qed.

(** X4: zstd is required exactly when libtiff is, that is when [with_tiff] is
    set, whatever the other options are. *)
Theorem imagemagick6_zstd_with_libtiff (c : ImageMagick6.ConanFile) :
  ("zstd/1.5.7" ∈ ImageMagick6.requirements c []
   <-> ImageMagick6.with_tiff (ImageMagick6.self_options c) = true)
  /\ ("libtiff/[>=4.6.0 <5]" ∈ ImageMagick6.requirements c []
      <-> ImageMagick6.with_tiff (ImageMagick6.self_options c) = true).
Proof.
  rewrite imagemagick6_requirements_closed_form. simpl.
  split; requirement_cases;
    destruct (ImageMagick6.with_jpeg (ImageMagick6.self_options c));
    rewrite ?elem_of_nil, ?list_elem_of_singleton;
    intuition (try discriminate; try congruence).
Qed.

(** ** ImageMagick 6: what [package_info] tells consumers *)

Ltac solve_keeps_field :=
  intros ?;
  first [ reflexivity
        | unfold pkg_config_name_of, cmake_target_name_of; simpl;
          apply lookup_insert_ne; discriminate ].

Ltac solve_keeps_view :=
  lazymatch goal with
  | |- Keeps _ (ImageMagick6.component _ _) =>
      apply Keeps_component; solve_keeps_field
  | |- Keeps _ (when _ _) => apply Keeps_when; solve_keeps_view
  | |- Keeps _ (when_elif _ _ _ _) => apply Keeps_when_elif; solve_keeps_view
  | |- Keeps _ (ImageMagick6.set_cpp_property _ _) => apply Keeps_set_cpp_property
  | |- Keeps _ (ImageMagick6.prepend_path _) => apply Keeps_prepend_path
  | |- Keeps _ (fun _ => _) => apply Keeps_then; solve_keeps_view
  end.

Lemma component_at_when_other n m f b p :
  m ≠ n ->
  component_at n (when b (ImageMagick6.component m f) p) = component_at n p.
Proof. intros Hne. destruct b; simpl; [by apply component_at_other | done]. Qed.

Lemma component_at_when_elif_other n m f1 f2 b1 b2 p :
  m ≠ n ->
  component_at n
    (when_elif b1 (ImageMagick6.component m f1) b2 (ImageMagick6.component m f2) p)
  = component_at n p.
Proof. intros Hne. destruct b1, b2; simpl; try done; by apply component_at_other. Qed.

Lemma component_at_when_two_other n m f1 f2 b p :
  m ≠ n ->
  component_at n
    (when b (fun p => ImageMagick6.component m f2 (ImageMagick6.component m f1 p)) p)
  = component_at n p.
Proof.
  intros Hne. destruct b; simpl; [| done].
  by rewrite !component_at_other.
Qed.

(** One statement that does not touch what [view] reads, wherever it stands
    in the goal. *)
Ltac skip_statement view :=
  match goal with
  | |- context [view (component_at ?n (?g ?p))] =>
      first [ rewrite (keeps_step view g n p) by solve_keeps_view
            | rewrite (component_at_other n _ _ p) by discriminate
            | rewrite (component_at_when_other n _ _ _ p) by discriminate
            | rewrite (component_at_when_elif_other n _ _ _ _ _ p) by discriminate
            | rewrite (component_at_when_two_other n _ _ _ _ p) by discriminate ]
  end.

Lemma requires_of_when_core b r p :
  requires_of (component_at "MagickCore"
    (when b (ImageMagick6.component "MagickCore" (ImageMagick6.append_requires r)) p))
  = requires_of (component_at "MagickCore" p) ++ (if b then [r] else []).
Proof.
  destruct b; simpl; [| by rewrite app_nil_r].
  by rewrite component_at_same.
Qed.

Lemma requires_of_when_elif_core b1 r1 b2 r2 p :
  requires_of (component_at "MagickCore"
    (when_elif
       b1 (ImageMagick6.component "MagickCore" (ImageMagick6.append_requires r1))
       b2 (ImageMagick6.component "MagickCore" (ImageMagick6.append_requires r2)) p))
  = requires_of (component_at "MagickCore" p)
    ++ (if b1 then [r1] else if b2 then [r2] else []).
Proof.
  destruct b1, b2; simpl; rewrite ?component_at_same, ?app_nil_r; done.
Qed.

Lemma requires_of_when_two_core b r1 r2 p :
  requires_of (component_at "MagickCore"
    (when b (fun p =>
       ImageMagick6.component "MagickCore" (ImageMagick6.append_requires r2)
         (ImageMagick6.component "MagickCore" (ImageMagick6.append_requires r1) p)) p))
  = requires_of (component_at "MagickCore" p) ++ (if b then [r1; r2] else []).
Proof.
  destruct b; simpl; [| by rewrite app_nil_r].
  rewrite !component_at_same. unfold requires_of. simpl. by rewrite <- app_assoc.
Qed.

Lemma fmap_if_singleton {A B : Type} (f : A -> B) (b : bool) (x : A) :
  f <$> (if b then [x] else []) = if b then [f x] else [].
Proof. by destruct b. Qed.

Lemma fmap_if_pair {A B : Type} (f : A -> B) (b : bool) (x y : A) :
  f <$> (if b then [x; y] else []) = if b then [f x; f y] else [].
Proof. by destruct b. Qed.

Lemma component_target_added (o : ImageMagick6.OptionValues) :
  component_target <$> imagemagick6_added o
  = (if ImageMagick6.with_zlib o then ["zlib::zlib"] else [])
    ++ (if ImageMagick6.with_bzlib o then ["bzip2::bzip2"] else [])
    ++ (if ImageMagick6.with_lzma o then ["xz_utils::xz_utils"] else [])
    ++ (if ImageMagick6.with_lcms o then ["lcms::lcms"] else [])
    ++ (if ImageMagick6.with_openexr o then ["openexr::openexr"] else [])
    ++ (if ImageMagick6.with_heic o then ["libheif::libheif"] else [])
    ++ (if ImageMagick6.with_jbig o then ["jbig::jbig"] else [])
    ++ (if bool_decide (ImageMagick6.with_jpeg o = ImageMagick6.jpeg_libjpeg)
        then ["libjpeg::libjpeg"]
        else if bool_decide (ImageMagick6.with_jpeg o = ImageMagick6.jpeg_libjpeg_turbo)
        then ["libjpeg-turbo::libjpeg-turbo"] else [])
    ++ (if ImageMagick6.with_openjp2 o then ["openjpeg::openjpeg"] else [])
    ++ (if ImageMagick6.with_pango o then ["pango::pango"] else [])
    ++ (if ImageMagick6.with_png o then ["libpng::libpng"] else [])
    ++ (if ImageMagick6.with_tiff o then ["libtiff::libtiff"; "zstd::zstd"] else [])
    ++ (if ImageMagick6.with_webp o then ["libwebp::libwebp"] else [])
    ++ (if ImageMagick6.with_xml2 o then ["libxml2::libxml2"] else [])
    ++ (if ImageMagick6.with_freetype o then ["freetype::freetype"] else []).
Proof.
  unfold imagemagick6_added.
  rewrite !fmap_app, !fmap_if_singleton, fmap_if_pair.
  destruct (ImageMagick6.with_jpeg o); reflexivity.
Qed.

(** X5: the requirements of the MagickCore component follow the dependency
    list: [package_info] appends to them the target [pkg::pkg] of every
    reference [requirements] adds, in the same order, and nothing else. *)
Theorem imagemagick6_component_requires_follow_requirements `{Library}
    (c : ImageMagick6.ConanFile) (p : ImageMagick6.PackageInfo) :
  requires_of (component_at "MagickCore" (ImageMagick6.package_info c p))
  = requires_of (component_at "MagickCore" p)
    ++ (component_target <$> ImageMagick6.requirements c []).
Proof.
  rewrite imagemagick6_requirements_closed_form. simpl.
  rewrite component_target_added.
  unfold ImageMagick6.package_info. cbv zeta.
  rewrite !truthy_flag, option_eq_libjpeg, option_eq_libjpeg_turbo.
  repeat first [ rewrite requires_of_when_core
               | rewrite requires_of_when_elif_core
               | rewrite requires_of_when_two_core
               | skip_statement (@requires_of) ].
  by rewrite <- !app_assoc.
Qed.

Lemma defines_of_extend n v p :
  defines_of (component_at n (ImageMagick6.component n (ImageMagick6.extend_defines v) p))
  = defines_of (component_at n p) ++ v.
Proof. by rewrite component_at_same. Qed.

Lemma arguments_for_quantum_depth (c : ImageMagick6.ConanFile) :
  arguments_for "--with-quantum-depth" (ImageMagick6.configure_args c)
  = ["--with-quantum-depth="
       +:+ quantum_depth_text (ImageMagick6.quantum_depth (ImageMagick6.self_options c))].
Proof.
  unfold ImageMagick6.configure_args, ImageMagick6.opt_quantum_depth. cbv zeta.
  rewrite !truthy_flag.
  destruct (ImageMagick6.quantum_depth (ImageMagick6.self_options c)); by vm_compute.
Qed.

Lemma arguments_for_hdri (c : ImageMagick6.ConanFile) :
  arguments_for "--enable-hdri" (ImageMagick6.configure_args c)
  = ["--enable-hdri="
       +:+ (if ImageMagick6.hdri (ImageMagick6.self_options c) then "yes" else "no")].
Proof.
  unfold ImageMagick6.configure_args. cbv zeta. rewrite !truthy_flag.
  destruct (ImageMagick6.hdri (ImageMagick6.self_options c)); by vm_compute.
Qed.

(** X6: the quantum depth and the HDRI switch that [generate] passes to
    configure are the ones [package_info] advertises: MagickCore gets the
    three defines for depth, HDRI and linkage, with the depth and the HDRI
    value of the only [--with-quantum-depth] and [--enable-hdri] arguments. *)
Theorem imagemagick6_defines_match_configure `{Library}
    (c : ImageMagick6.ConanFile) (p : ImageMagick6.PackageInfo) :
  let o := ImageMagick6.self_options c in
  let depth := quantum_depth_text (ImageMagick6.quantum_depth o) in
  defines_of (component_at "MagickCore" (ImageMagick6.package_info c p))
  = defines_of (component_at "MagickCore" p)
    ++ [ "MAGICKCORE_QUANTUM_DEPTH=" +:+ depth;
         "MAGICKCORE_HDRI_ENABLE=" +:+ (if ImageMagick6.hdri o then "1" else "0");
         if ImageMagick6.shared o then "_MAGICKDLL_=1" else "_MAGICKLIB_=1" ]
  /\ arguments_for "--with-quantum-depth" (ImageMagick6.configure_args c)
     = ["--with-quantum-depth=" +:+ depth]
  /\ arguments_for "--enable-hdri" (ImageMagick6.configure_args c)
     = ["--enable-hdri=" +:+ (if ImageMagick6.hdri o then "yes" else "no")]
  /\ defines_of (component_at "MagickWand" (ImageMagick6.package_info c p))
     = defines_of (component_at "MagickWand" p)
  /\ defines_of (component_at "Magick++" (ImageMagick6.package_info c p))
     = defines_of (component_at "Magick++" p).
Proof.
  intros o depth.
  split; [| split; [apply arguments_for_quantum_depth |
            split; [apply arguments_for_hdri | split]]];
    unfold ImageMagick6.package_info; cbv zeta;
    repeat first [ rewrite defines_of_extend | skip_statement (@defines_of) ];
    try reflexivity.
  subst o depth. unfold ImageMagick6.opt_quantum_depth. rewrite !truthy_flag.
  by destruct (ImageMagick6.quantum_depth (ImageMagick6.self_options c)).
Qed.

Lemma system_libs_of_when_append b n v p :
  system_libs_of (component_at n
    (when b (ImageMagick6.component n (ImageMagick6.append_system_lib v)) p))
  = system_libs_of (component_at n p) ++ (if b then [v] else []).
Proof.
  destruct b; simpl; [| by rewrite app_nil_r].
  by rewrite component_at_same.
Qed.

(** X7: [package_info] makes MagickCore link [pthread] exactly when the os is
    Linux and gives no system library to MagickWand and Magick++. *)
Theorem imagemagick6_system_libs `{Library}
    (c : ImageMagick6.ConanFile) (p : ImageMagick6.PackageInfo) :
  system_libs_of (component_at "MagickCore" (ImageMagick6.package_info c p))
  = system_libs_of (component_at "MagickCore" p)
    ++ (if bool_decide (item_value (os (ImageMagick6.settings c)) = Some "Linux")
        then ["pthread"] else [])
  /\ system_libs_of (component_at "MagickWand" (ImageMagick6.package_info c p))
     = system_libs_of (component_at "MagickWand" p)
  /\ system_libs_of (component_at "Magick++" (ImageMagick6.package_info c p))
     = system_libs_of (component_at "Magick++" p).
Proof.
  repeat split; unfold ImageMagick6.package_info; cbv zeta;
    repeat first [ rewrite system_libs_of_when_append
                 | skip_statement (@system_libs_of) ];
    reflexivity.
Qed.

Lemma requires_of_set n v p :
  requires_of (component_at n (ImageMagick6.component n (ImageMagick6.set_requires v) p)) = v.
Proof. by rewrite component_at_same. Qed.

Lemma cmake_target_name_of_set n v p :
  cmake_target_name_of
    (component_at n (ImageMagick6.component n
       (ImageMagick6.set_property "cmake_target_name" v) p))
  = Some v.
Proof.
  rewrite component_at_same. unfold cmake_target_name_of. simpl. apply lookup_insert_eq.
Qed.

(** X8: the components depend on each other in a chain: MagickWand requires
    exactly MagickCore, Magick++ requires exactly MagickWand, and each
    component is exported as the CMake target [ImageMagick::<name>]. *)
Theorem imagemagick6_component_chain `{Library}
    (c : ImageMagick6.ConanFile) (p : ImageMagick6.PackageInfo) :
  requires_of (component_at "MagickWand" (ImageMagick6.package_info c p)) = ["MagickCore"]
  /\ requires_of (component_at "Magick++" (ImageMagick6.package_info c p)) = ["MagickWand"]
  /\ Forall (fun base =>
       cmake_target_name_of (component_at base (ImageMagick6.package_info c p))
       = Some ("ImageMagick::" +:+ base))
       ImageMagick6._modules.
Proof.
  split; [| split].
  - unfold ImageMagick6.package_info; cbv zeta.
    repeat first [ rewrite requires_of_set | skip_statement (@requires_of) ].
    reflexivity.
  - unfold ImageMagick6.package_info; cbv zeta.
    repeat first [ rewrite requires_of_set | skip_statement (@requires_of) ].
    reflexivity.
  - unfold ImageMagick6._modules, ImageMagick6.package_info; cbv zeta.
    repeat apply Forall_cons_2; [| | | apply Forall_nil_2];
      repeat first [ rewrite cmake_target_name_of_set
                   | skip_statement (@cmake_target_name_of) ];
      reflexivity.
Qed.

Lemma adds_modules_only_refl p : adds_modules_only p p.
Proof. unfold adds_modules_only. set_solver. Qed.

Lemma component_names_component n f p :
  component_names (ImageMagick6.component n f p) = {[n]} ∪ component_names p.
Proof. unfold component_names, ImageMagick6.component; simpl. apply dom_insert_L. Qed.

Lemma module_step_component n f :
  n ∈ ImageMagick6._modules -> module_step (ImageMagick6.component n f).
Proof.
  intros Hn p q [H1 H2]. unfold adds_modules_only.
  rewrite component_names_component.
  assert (n ∈ (list_to_set ImageMagick6._modules : gset string))
    by by apply elem_of_list_to_set.
  set_solver.
Qed.

Lemma module_step_when b g : module_step g -> module_step (when b g).
Proof. intros Hg p q Hq. destruct b; simpl; [by apply Hg | done]. Qed.

Lemma module_step_when_elif b1 g1 b2 g2 :
  module_step g1 -> module_step g2 -> module_step (when_elif b1 g1 b2 g2).
Proof. intros H1 H2 p q Hq. destruct b1, b2; simpl; auto. Qed.

Lemma module_step_then g h :
  module_step h -> module_step g -> module_step (fun p => g (h p)).
Proof. intros Hh Hg p q Hq. by apply Hg, Hh. Qed.

Lemma module_step_set_cpp_property k v : module_step (ImageMagick6.set_cpp_property k v).
Proof. by intros p q Hq. Qed.

Lemma module_step_prepend_path v : module_step (ImageMagick6.prepend_path v).
Proof. by intros p q Hq. Qed.

Ltac solve_module_step :=
  lazymatch goal with
  | |- module_step (ImageMagick6.component _ _) =>
      apply module_step_component; unfold ImageMagick6._modules;
      rewrite !elem_of_cons; tauto
  | |- module_step (when _ _) => apply module_step_when; solve_module_step
  | |- module_step (when_elif _ _ _ _) => apply module_step_when_elif; solve_module_step
  | |- module_step (ImageMagick6.set_cpp_property _ _) => apply module_step_set_cpp_property
  | |- module_step (ImageMagick6.prepend_path _) => apply module_step_prepend_path
  | |- module_step (fun _ => _) => apply module_step_then; solve_module_step
  end.

Ltac module_steps :=
  repeat lazymatch goal with
         | |- adds_modules_only ?p (?g ?q) =>
             let Hg := fresh in
             assert (Hg : module_step g) by solve_module_step;
             apply (Hg p q); clear Hg
         end.

(** X9: [package_info] creates the three core modules MagickCore, MagickWand
    and Magick++ as components, and no other component, whatever the options
    are and whatever the package info held before. *)
Theorem imagemagick6_components_are_modules `{Library}
    (c : ImageMagick6.ConanFile) (p : ImageMagick6.PackageInfo) :
  component_names (ImageMagick6.package_info c p)
  = component_names p ∪ list_to_set ImageMagick6._modules.
Proof.
  assert (Hadd : adds_modules_only p (ImageMagick6.package_info c p)).
  { unfold ImageMagick6.package_info. cbv zeta. module_steps.
    apply adds_modules_only_refl. }
  destruct Hadd as [H1 H2].
  assert (H3 : list_to_set ImageMagick6._modules
               ⊆ component_names (ImageMagick6.package_info c p)).
  { intros base Hbase%elem_of_list_to_set. apply elem_of_dom.
    by apply package_info_has_components. }
  set_solver.
Qed.

Lemma string_length_append (s t : string) :
  String.length (s +:+ t) = String.length s + String.length t.
Proof. induction s as [| a s IH]; [done |]. rewrite append_cons. simpl. by rewrite IH. Qed.

(** X10: on Windows the pkg-config name never carries the HDRI suffix: it is
    ["<base>-<major>.Q<depth>"] for each component, so with [hdri] set it
    differs from the library name, which is that name followed by ["HDRI"]. *)
Theorem imagemagick6_pkg_config_names_on_windows `{Library}
    (c : ImageMagick6.ConanFile) (p : ImageMagick6.PackageInfo) :
  item_value (os (ImageMagick6.settings c)) = Some "Windows" ->
  Forall (fun base =>
    let plain := base +:+ "-" +:+ Version_major (ImageMagick6.version c) +:+ ".Q"
      +:+ quantum_depth_text (ImageMagick6.quantum_depth (ImageMagick6.self_options c)) in
    pkg_config_name_of (component_at base (ImageMagick6.package_info c p)) = Some plain
    /\ (ImageMagick6.hdri (ImageMagick6.self_options c) = true ->
        ImageMagick6._libname c base = plain +:+ "HDRI"
        /\ ImageMagick6._libname c base ≠ plain))
    ImageMagick6._modules.
Proof.
  intros Hos. apply Forall_forall. intros base Hbase. cbv zeta. split.
  - rewrite package_info_pkg_config_name by done.
    unfold ImageMagick6.pc_config_name, setting_eq, ImageMagick6.opt_quantum_depth.
    cbv zeta. rewrite (bool_decide_eq_true_2 _ Hos), andb_false_r.
    by destruct (ImageMagick6.quantum_depth (ImageMagick6.self_options c)).
  - intros Hhdri. rewrite libname_convention, Hhdri.
    assert (Happ : forall a b d e f : string,
              a +:+ b +:+ d +:+ e +:+ f +:+ "HDRI" = (a +:+ b +:+ d +:+ e +:+ f) +:+ "HDRI").
    { intros. by rewrite !append_assoc. }
    rewrite Happ. split; [done |].
    intros Heq. apply (f_equal String.length) in Heq.
    rewrite string_length_append in Heq. simpl in Heq. lia.
Qed.

Lemma imagemagick6_pkg_config_names_on_windows_witness :
  item_value (os (ImageMagick6.settings example_imagemagick6_windows)) = Some "Windows"
  /\ pkg_config_name_of
       (component_at "MagickCore"
          (@ImageMagick6.package_info example_library example_imagemagick6_windows
             ImageMagick6.new_package_info))
     = Some "MagickCore-6.Q16"
  /\ @ImageMagick6._libname example_library example_imagemagick6_windows "MagickCore"
     = "MagickCore-6.Q16HDRI".
Proof.
  split; [reflexivity |].
  pose proof (@imagemagick6_pkg_config_names_on_windows example_library
                example_imagemagick6_windows ImageMagick6.new_package_info eq_refl) as Hall.
  apply Forall_cons_1 in Hall as [[Hpc Hlib] _].
  split; [exact Hpc | exact (proj1 (Hlib eq_refl))].
Defined.

Lemma keeps_runenv_component n f : keeps_runenv (ImageMagick6.component n f).
Proof. by intros p. Qed.

Lemma keeps_runenv_set_cpp_property k v : keeps_runenv (ImageMagick6.set_cpp_property k v).
Proof. by intros p. Qed.

Lemma keeps_runenv_when b g : keeps_runenv g -> keeps_runenv (when b g).
Proof. intros Hg p. destruct b; simpl; [apply Hg | done]. Qed.

Lemma keeps_runenv_when_elif b1 g1 b2 g2 :
  keeps_runenv g1 -> keeps_runenv g2 -> keeps_runenv (when_elif b1 g1 b2 g2).
Proof. intros H1 H2 p. destruct b1, b2; simpl; auto. Qed.

Lemma keeps_runenv_then g h :
  keeps_runenv h -> keeps_runenv g -> keeps_runenv (fun p => g (h p)).
Proof. intros Hh Hg p. by rewrite Hg, Hh. Qed.

Lemma runenv_path_when_prepend b v p :
  ImageMagick6.runenv_path (when b (ImageMagick6.prepend_path v) p)
  = (if b then [v] else []) ++ ImageMagick6.runenv_path p.
Proof. by destruct b. Qed.

Ltac solve_keeps_runenv :=
  lazymatch goal with
  | |- keeps_runenv (ImageMagick6.component _ _) => apply keeps_runenv_component
  | |- keeps_runenv (ImageMagick6.set_cpp_property _ _) => apply keeps_runenv_set_cpp_property
  | |- keeps_runenv (when _ _) => apply keeps_runenv_when; solve_keeps_runenv
  | |- keeps_runenv (when_elif _ _ _ _) => apply keeps_runenv_when_elif; solve_keeps_runenv
  | |- keeps_runenv (fun _ => _) => apply keeps_runenv_then; solve_keeps_runenv
  end.

Ltac skip_runenv :=
  match goal with
  | |- context [ImageMagick6.runenv_path (?g ?p)] =>
      let Hg := fresh in
      assert (Hg : keeps_runenv g) by solve_keeps_runenv;
      rewrite (Hg p); clear Hg
  end.

(** X11: [package_info] puts the [bin] folder of the package in front of the
    run-time PATH exactly when [utilities] is set, and names the package
    [ImageMagick] with the target [ImageMagick::MagickCore] for CMake. *)
Theorem imagemagick6_runenv_and_cmake_names `{Library}
    (c : ImageMagick6.ConanFile) (p : ImageMagick6.PackageInfo) :
  ImageMagick6.runenv_path (ImageMagick6.package_info c p)
  = (if ImageMagick6.utilities (ImageMagick6.self_options c)
     then [path_join (ImageMagick6.package_folder c) "bin"] else [])
    ++ ImageMagick6.runenv_path p
  /\ ImageMagick6.properties (ImageMagick6.package_info c p) !! "cmake_file_name"
     = Some "ImageMagick"
  /\ ImageMagick6.properties (ImageMagick6.package_info c p) !! "cmake_target_name"
     = Some "ImageMagick::MagickCore".
Proof.
  split; [| split].
  - unfold ImageMagick6.package_info. cbv zeta. rewrite !truthy_flag.
    repeat first [ rewrite runenv_path_when_prepend | skip_runenv ].
    reflexivity.
  - unfold ImageMagick6.package_info. cbv zeta.
    cbn [ImageMagick6.component ImageMagick6.properties ImageMagick6.set_cpp_property].
    rewrite lookup_insert_ne by discriminate. apply lookup_insert_eq.
  - unfold ImageMagick6.package_info. cbv zeta.
    cbn [ImageMagick6.component ImageMagick6.properties ImageMagick6.set_cpp_property].
    apply lookup_insert_eq.
Qed.

(** ** ImageMagick 6: the arguments of configure *)

(** X12: the thirty-two arguments of the recipe's own list [configure_args]
    all start with ["--"] and set pairwise different flags, whatever the
    options are.  [generate] puts them behind the arguments the toolchain
    already holds, so the list handed to configure repeats no flag exactly
    when the toolchain's own arguments repeat none and set none of these
    thirty-two flags. *)
Theorem imagemagick6_configure_flags_distinct (c : ImageMagick6.ConanFile)
    (tc : ImageMagick6.AutotoolsToolchain) :
  length (ImageMagick6.configure_args c) = 32
  /\ NoDup (flag_name <$> ImageMagick6.configure_args c)
  /\ NoDup (ImageMagick6.configure_args c)
  /\ Forall (fun arg => String.prefix "--" arg = true) (ImageMagick6.configure_args c)
  /\ (NoDup (flag_name <$> ImageMagick6.tc_configure_args (ImageMagick6.generate c tc))
      <-> NoDup (flag_name <$> ImageMagick6.tc_configure_args tc)
          /\ forall arg, arg ∈ ImageMagick6.tc_configure_args tc ->
                         flag_name arg ∉ flag_name <$> ImageMagick6.configure_args c).
Proof.
  assert (Hnames : NoDup (flag_name <$> ImageMagick6.configure_args c)).
  { apply (bool_decide_unpack (NoDup (flag_name <$> ImageMagick6.configure_args c))).
    by vm_compute. }
  split; [reflexivity |]. split; [exact Hnames |]. split; [| split].
  - by apply (NoDup_fmap_1 flag_name).
  - unfold ImageMagick6.configure_args. cbv zeta. repeat constructor.
  - rewrite generate_configure_args, fmap_app, NoDup_app. split.
    + intros (Htc & Hdisj & _). split; [exact Htc |].
      intros arg Harg. apply Hdisj. by apply list_elem_of_fmap_2.
    + intros [Htc Hdisj]. split; [exact Htc |]. split; [| exact Hnames].
      intros name (arg & -> & Harg)%list_elem_of_fmap. by apply Hdisj.
Qed.

(** A toolchain that already holds [--enable-shared], as Conan's does for a
    shared library, ends with that flag twice. *)
Example imagemagick6_shared_flag_repeated :
  ~ NoDup (flag_name <$> ImageMagick6.tc_configure_args
             (ImageMagick6.generate example_imagemagick6
                {| ImageMagick6.extra_ldflags := [];
                   ImageMagick6.make_args := [];
                   ImageMagick6.tc_configure_args :=
                     ["--enable-shared"; "--disable-static"; "--prefix=/"] |})).
Proof.
  apply (bool_decide_eq_false_1
           (NoDup (flag_name <$> ImageMagick6.tc_configure_args
             (ImageMagick6.generate example_imagemagick6
                {| ImageMagick6.extra_ldflags := [];
                   ImageMagick6.make_args := [];
                   ImageMagick6.tc_configure_args :=
                     ["--enable-shared"; "--disable-static"; "--prefix=/"] |})))).
  by vm_compute.
Qed.

(** ** cppcheck: [generate] and [package_id] *)

(** X13: [generate] of the cppcheck recipe sets [HAVE_RULES] to the
    [have_rules] option, which is true exactly when [requirements] asks for
    pcre; it always sets [USE_MATCHCOMPILER], [ENABLE_OSS_FUZZ] and
    [FILESDIR], sets [DISABLE_DMAKE] from version 2.11.0 on and the CMake
    policy minimum below 2.14.0, and leaves every other variable alone. *)
Theorem cppcheck_generate_variables `{Library}
    (c : Cppcheck.ConanFile) (tc : Cppcheck.CMakeToolchain) :
  let tc' := Cppcheck.generate c tc in
  let have_rules := store (PyBool (Cppcheck.have_rules (Cppcheck.self_options c))) in
  Cppcheck.variables tc' !! "HAVE_RULES" = Some (Cppcheck.CMOption have_rules)
  /\ (truthy have_rules = true <-> "pcre/8.45" ∈ Cppcheck.requirements c [])
  /\ Cppcheck.variables tc' !! "USE_MATCHCOMPILER" = Some (Cppcheck.CMStr "Auto")
  /\ Cppcheck.variables tc' !! "ENABLE_OSS_FUZZ" = Some (Cppcheck.CMBool false)
  /\ Cppcheck.variables tc' !! "FILESDIR" = Some (Cppcheck.CMStr "bin")
  /\ Cppcheck.variables tc' !! "DISABLE_DMAKE"
     = (if Version_ge (Cppcheck.version c) "2.11.0"
        then Some (Cppcheck.CMBool true)
        else Cppcheck.variables tc !! "DISABLE_DMAKE")
  /\ Cppcheck.cache_variables tc'
     = (if Version_lt (Cppcheck.version c) "2.14.0"
        then <["CMAKE_POLICY_VERSION_MINIMUM" := Cppcheck.CMStr "3.5"]>
               (Cppcheck.cache_variables tc)
        else Cppcheck.cache_variables tc)
  /\ (forall k,
        k ∉ ["HAVE_RULES"; "USE_MATCHCOMPILER"; "ENABLE_OSS_FUZZ"; "DISABLE_DMAKE"; "FILESDIR"] ->
        Cppcheck.variables tc' !! k = Cppcheck.variables tc !! k).
Proof.
  intros tc' have_rules. subst tc'. unfold Cppcheck.generate, Cppcheck.get_safe.
  cbv zeta. simpl.
  destruct (Version_ge (Cppcheck.version c) "2.11.0"),
           (Version_lt (Cppcheck.version c) "2.14.0"); simpl;
    (split; [by simplify_map_eq |]);
    (split; [subst have_rules; unfold Cppcheck.requirements, Cppcheck.get_safe; simpl;
             destruct (Cppcheck.have_rules (Cppcheck.self_options c)); simpl;
             [split; [intros _; apply list_elem_of_singleton; reflexivity | done]
             | split; [done | by intros ?%elem_of_nil]] |]);
    (split; [by simplify_map_eq |]);
    (split; [by simplify_map_eq |]);
    (split; [by simplify_map_eq |]);
    (split; [by simplify_map_eq |]);
    (split; [done |]);
    intros k Hk; repeat (apply not_elem_of_cons in Hk as [? Hk]);
    by simplify_map_eq.
Qed.

(** X14: [package_id] of cppcheck succeeds exactly on an info that holds both
    the [compiler] and the [build_type] setting; the info it returns has
    neither, keeps every other setting with its value, and keeps the options
    and the requirements. *)
Theorem cppcheck_package_id_deletes (i : ConanInfo) :
  match Cppcheck.package_id i with
  | Ok i' =>
      is_Some (info_settings i !! "compiler")
      /\ is_Some (info_settings i !! "build_type")
      /\ info_settings i' !! "compiler" = None
      /\ info_settings i' !! "build_type" = None
      /\ (forall k, k ≠ "compiler" -> k ≠ "build_type" ->
                    info_settings i' !! k = info_settings i !! k)
      /\ info_options i' = info_options i
      /\ info_requires i' = info_requires i
  | Raise e =>
      (info_settings i !! "compiler" = None \/ info_settings i !! "build_type" = None)
      /\ exists msg, e = ConanException msg
  end.
Proof.
  unfold Cppcheck.package_id, delattr_setting.
  destruct (info_settings i !! "compiler") as [x |] eqn:Hc; simpl.
  - rewrite lookup_delete_ne by discriminate.
    destruct (info_settings i !! "build_type") as [y |] eqn:Hb; simpl.
    + split; [done |]. split; [done |].
      split; [by simplify_map_eq |]. split; [by simplify_map_eq |].
      split; [| done]. intros k Hk1 Hk2. by simplify_map_eq.
    + split; [by right | by eexists].
  - split; [by left | by eexists].
Qed.

(** ** The test package of vectorscan *)

Lemma path_join_inj (d a b : string) : path_join d a = path_join d b -> a = b.
Proof.
  unfold path_join. intros Heq.
  apply (String.app_inj d) in Heq. by apply (String.app_inj "/") in Heq.
Qed.

(** X15: [test] runs nothing when the build cannot run on this machine;
    otherwise it runs [hs_example] first and then [ch_example] exactly when
    the [with_chimera] option of vectorscan is true, which is the value
    [generate] hands to CMake as [BUILD_CHIMERA]. *)
Theorem vectorscan_test_commands (c : VectorscanTestPackage.ConanFile)
    (variables : gmap string PackageOption) :
  let hs := path_join (VectorscanTestPackage.bindir c) "hs_example" in
  let ch := path_join (VectorscanTestPackage.bindir c) "ch_example" in
  (hs ∈ VectorscanTestPackage.test c <-> VectorscanTestPackage.can_run c = true)
  /\ (ch ∈ VectorscanTestPackage.test c
      <-> VectorscanTestPackage.can_run c = true
          /\ exists o, VectorscanTestPackage.generate c variables !! "BUILD_CHIMERA" = Some o
                       /\ truthy o = true)
  /\ (VectorscanTestPackage.can_run c = true ->
      head (VectorscanTestPackage.test c) = Some hs)
  /\ (VectorscanTestPackage.can_run c = false -> VectorscanTestPackage.test c = [])
  /\ length (VectorscanTestPackage.test c) <= 2.
Proof.
  intros hs ch.
  assert (Hne : hs ≠ ch).
  { intros Heq. apply path_join_inj in Heq. discriminate. }
  unfold VectorscanTestPackage.test, VectorscanTestPackage.generate.
  rewrite lookup_insert_eq. fold hs ch.
  destruct (VectorscanTestPackage.can_run c),
           (truthy (VectorscanTestPackage.with_chimera c)) eqn:Hch; simpl.
  - split; [split; [done | intros _; apply elem_of_cons; by left] |].
    split; [| split; [done | split; [done | lia]]].
    split.
    + intros _. split; [done |]. by eexists.
    + intros _. apply elem_of_cons. right. by apply list_elem_of_singleton.
  - split; [split; [done | intros _; by apply list_elem_of_singleton] |].
    split; [| split; [done | split; [done | lia]]].
    split.
    + intros ?%list_elem_of_singleton. by destruct Hne.
    + intros [_ (o & [= <-] & Ho)]. congruence.
  - split; [split; [by intros ?%elem_of_nil | done] |].
    split; [| split; [done | split; [done | lia]]].
    split; [by intros ?%elem_of_nil | by intros [? _]].
  - split; [split; [by intros ?%elem_of_nil | done] |].
    split; [| split; [done | split; [done | lia]]].
    split; [by intros ?%elem_of_nil | by intros [? _]].
Qed.

(** ** ImageMagick 6: Apple systems *)

Lemma rmdir_is_not_fix (x : string) : "fix_apple_shared_install_name" ≠ "rmdir " +:+ x.
Proof. intros Heq. rewrite !append_cons in Heq. discriminate. Qed.

Lemma rm_is_not_fix (x : string) : "fix_apple_shared_install_name" ≠ "rm *.la " +:+ x.
Proof. intros Heq. rewrite !append_cons in Heq. discriminate. Qed.

(** X16: [package] runs [fix_apple_shared_install_name] exactly on Apple
    systems, and [generate] has then prepared every shared build for it: the
    header-pad linker flag is appended exactly for shared builds on Apple
    systems, and nothing the toolchain held is dropped. *)
Theorem imagemagick6_apple_install_names (c : ImageMagick6.ConanFile)
    (tc : ImageMagick6.AutotoolsToolchain) :
  ("fix_apple_shared_install_name" ∈ ImageMagick6.package c
   <-> ImageMagick6.is_apple_os c = true)
  /\ ImageMagick6.extra_ldflags (ImageMagick6.generate c tc)
     = ImageMagick6.extra_ldflags tc
       ++ (if ImageMagick6.is_apple_os c
              && ImageMagick6.shared (ImageMagick6.self_options c)
           then [headerpad_flag] else [])
  /\ ImageMagick6.make_args (ImageMagick6.generate c tc)
     = ImageMagick6.make_args tc ++ ["V=1"]
  /\ ("fix_apple_shared_install_name" ∈ ImageMagick6.package c ->
      ImageMagick6.shared (ImageMagick6.self_options c) = true ->
      headerpad_flag ∈ ImageMagick6.extra_ldflags (ImageMagick6.generate c tc)).
Proof.
  assert (Hfix : "fix_apple_shared_install_name" ∈ ImageMagick6.package c
                 <-> ImageMagick6.is_apple_os c = true).
  { unfold ImageMagick6.package.
    rewrite !elem_of_app, !elem_of_cons, elem_of_nil.
    destruct (ImageMagick6.is_apple_os c).
    - rewrite list_elem_of_singleton. split; [done | intros _; right; by left].
    - rewrite elem_of_nil. split; [| done].
      intros [[? | [? | [? | []]]] | [[] | [? | [? | [? | [? | [? | []]]]]]]];
        try discriminate;
        first [ by eapply rmdir_is_not_fix | by eapply rm_is_not_fix ]. }
  assert (Hld : ImageMagick6.extra_ldflags (ImageMagick6.generate c tc)
     = ImageMagick6.extra_ldflags tc
       ++ (if ImageMagick6.is_apple_os c
              && ImageMagick6.shared (ImageMagick6.self_options c)
           then [headerpad_flag] else [])).
  { unfold ImageMagick6.generate. rewrite truthy_flag.
    destruct (ImageMagick6.is_apple_os c
              && ImageMagick6.shared (ImageMagick6.self_options c)); simpl;
      [done | by rewrite app_nil_r]. }
  split; [exact Hfix |]. split; [exact Hld |]. split.
  - unfold ImageMagick6.generate.
    by destruct (ImageMagick6.is_apple_os c
                 && truthy (ImageMagick6.flag
                              (ImageMagick6.shared (ImageMagick6.self_options c)))).
  - intros Hrun Hshared. apply Hfix in Hrun. rewrite Hld, Hrun, Hshared. simpl.
    apply elem_of_app. right. by apply list_elem_of_singleton.
Qed.
